(** * mailcow-scim-bridge: a shallow embedding of [app/main.py]

    The bridge receives SCIM user requests, calls the Mailcow REST API and
    keeps a SQLite table of provisioned users next to three metric
    counters.  This file embeds the user operations of [app/main.py]
    ([get_primary_mail], [create_user], [get_user], [get_users],
    [delete_user], [update_user]), the Mailcow helpers, the start-up code,
    [get_metrics] and the endpoints, and settles the properties the
    specification states about them, then further properties of the code.

    Conventions of the embedding:
    - values that come out of [json] are [json] terms, [JNull] being
      Python's [None]; JSON numbers are integers (the fields the bridge
      reads hold no fractions);
    - a Python exception is a constructor of [exn]; a function that can
      raise returns a [result];
    - the operations run in a state-and-exception monad [M] whose state is
      the database file, the view of the open connection, the number of
      commits and the list of requests sent to Mailcow. *)

From Stdlib Require Import ZArith List String Ascii Bool Lia DecimalString.
From stdpp Require Import gmap strings list fin_maps.

Local Open Scope Z_scope.
Local Open Scope string_scope.

(** ** Python values and exceptions *)

#[local] Set Warnings "-register-all".

Inductive json : Type :=
| JNull
| JBool (b : bool)
| JNum (n : Z)
| JStr (s : string)
| JArr (l : list json)
| JObj (d : list (string * json)).

Inductive exn : Type :=
| KeyError
| IndexError
| TypeError
| AttributeError
| ValueError
| OverflowError
| ValidationError
| ProgrammingError
| IntegrityError
| HTTPException (status_code : Z) (detail : json).

Inductive result (A : Type) : Type :=
| Return (a : A)
| Raise (e : exn).
Arguments Return {A} a.
Arguments Raise {A} e.

Definition rbind {A B} (r : result A) (k : A -> result B) : result B :=
  match r with
  | Return a => k a
  | Raise e => Raise e
  end.

Notation "x <-? r ;; k" := (rbind r (fun x => k))
  (at level 100, r at next level, right associativity).

(** [d.get(k)] on a dict built by the JSON parser (keys are strings). *)
Fixpoint assoc (k : string) (d : list (string * json)) : option json :=
  match d with
  | [] => None
  | (k', v) :: d' => if String.eqb k k' then Some v else assoc k d'
  end.

(** [v.get(k)]: only dicts have the method. *)
Definition dict_get (v : json) (k : string) : result json :=
  match v with
  | JObj d => Return (match assoc k d with Some x => x | None => JNull end)
  | _ => Raise AttributeError
  end.

(** [v[i]] for a literal index [i]. *)
Definition getitem_int (v : json) (i : nat) : result json :=
  match v with
  | JArr l => match nth_error l i with
              | Some x => Return x
              | None => Raise IndexError
              end
  | JStr s => match String.get i s with
              | Some c => Return (JStr (String c EmptyString))
              | None => Raise IndexError
              end
  | JObj _ => Raise KeyError
  | _ => Raise TypeError
  end.

(** [v["k"]]. *)
Definition getitem_str (v : json) (k : string) : result json :=
  match v with
  | JObj d => match assoc k d with
              | Some x => Return x
              | None => Raise KeyError
              end
  | _ => Raise TypeError
  end.

(** Truth value of a Python object, as [and] / [not] see it. *)
Definition truthy (v : json) : bool :=
  match v with
  | JNull => false
  | JBool b => b
  | JNum n => negb (n =? 0)%Z
  | JStr s => negb (String.eqb s "")
  | JArr l => match l with [] => false | _ => true end
  | JObj d => match d with [] => false | _ => true end
  end.

(** [v is True]. *)
Definition is_True (v : json) : bool :=
  match v with JBool true => true | _ => false end.

(** [v is None]. *)
Definition is_None (v : json) : bool :=
  match v with JNull => true | _ => false end.

(** [v == s] for a string literal [s]. *)
Definition eq_str (v : json) (s : string) : bool :=
  match v with JStr t => String.eqb t s | _ => false end.

(** [s.split(sep)] for a one-character separator: never empty. *)
Fixpoint split (sep : ascii) (s : string) : list string :=
  match s with
  | EmptyString => [EmptyString]
  | String c s' =>
      if Ascii.eqb c sep then EmptyString :: split sep s'
      else match split sep s' with
           | [] => [String c EmptyString]
           | w :: ws => String c w :: ws
           end
  end.

(** [v.split("@")[i]]: [AttributeError] unless [v] is a [str]. *)
Definition split_at_index (v : json) (i : nat) : result string :=
  match v with
  | JStr s => match nth_error (split "@"%char s) i with
              | Some p => Return p
              | None => Raise IndexError
              end
  | _ => Raise AttributeError
  end.

(** ** Primary-address resolution *)

(** The [for] loop of [get_primary_mail]: [Some v] when the loop returned
    [v], [None] when it ran to its end. *)
Fixpoint primary_loop (mails : list json) : result (option json) :=
  match mails with
  | [] => Return None
  | mail :: rest =>
      p <-? dict_get mail "primary" ;;
      if is_True p then (v <-? dict_get mail "value" ;; Return (Some v))
      else primary_loop rest
  end.

(** After the loop the variable [mail] still holds the last entry, and the
    final [return] indexes that entry, not the list. *)
Definition get_primary_mail (mails : list json) : result json :=
  if (Z.of_nat (length mails) <? 1)%Z then Return JNull
  else
    r <-? primary_loop mails ;;
    match r with
    | Some v => Return v
    | None =>
        let mail := List.last mails JNull in
        first <-? getitem_int mail 0 ;;
        dict_get first "value"
    end.

(** ** Configuration *)

(** The environment the module reads at import time.  [ALLOW_DELETE] and
    [MAILCOW_DELETE_MAILBOX] are only ever tested for truth. *)
Record config : Type := {
  MAILCOW_API_URL : string;
  ALLOW_DELETE : bool;
  MAILCOW_DELETE_MAILBOX : bool
}.

(** ** The SQLite database *)

(** A row of [users]: [id TEXT PRIMARY KEY, mailcowId TEXT, scimId TEXT,
    active INTEGER, userName TEXT UNIQUE, displayName TEXT, emails TEXT].
    [None] is SQL [NULL].  The [emails] column holds [json.dumps] of the
    list and is only read back through [json.loads], so the row keeps the
    list itself. *)
Record row : Type := {
  r_id : string;
  r_mailcowId : option string;
  r_scimId : option string;
  r_active : Z;
  r_userName : string;
  r_displayName : option string;
  r_emails : list json
}.

(** The two tables; [users] in rowid (insertion) order, [metrics] keyed by
    its primary key [name]. *)
Record db : Type := {
  users : list row;
  metrics : gmap string Z
}.

(** [INSERT INTO metrics (name, value) VALUES (name, 0)
     ON CONFLICT(name) DO NOTHING]. *)
Definition insert_metric_if_absent (name : string) (d : db) : db :=
  match metrics d !! name with
  | Some _ => d
  | None => {| users := users d; metrics := <[name := 0]> (metrics d) |}
  end.

(** Module-level start-up code: the three counters are created once. *)
Definition bootstrap (d : db) : db :=
  insert_metric_if_absent "users_deleted"
    (insert_metric_if_absent "users_updated"
       (insert_metric_if_absent "users_created" d)).

(** [value + 1] on a 64-bit INTEGER.  Below the largest INTEGER the sum is
    the INTEGER [v + 1].  At [2 ^ 63 - 1] the sum does not fit: SQLite stores
    the REAL 9223372036854775808.0 instead, and adding 1 to that REAL gives
    it back, so the counter has stopped.  The table of this model holds
    INTEGERs only: there it keeps the largest INTEGER, and what is stated
    about the value of a counter is stated for counters below it. *)
Definition add_one (v : Z) : Z :=
  if (v <? 2 ^ 63 - 1)%Z then v + 1 else v.

(** [UPDATE metrics SET value = value + 1 WHERE name = name]. *)
Definition incr_metric (name : string) (d : db) : db :=
  {| users := users d; metrics := alter add_one name (metrics d) |}.

(** SQL [=] on a nullable text column against a nullable parameter:
    a comparison with [NULL] is never true. *)
Definition sql_eq (a b : option string) : bool :=
  match a, b with
  | Some x, Some y => String.eqb x y
  | _, _ => false
  end.

(** [SELECT 1 FROM users WHERE scimId = ? OR userName = ?], [fetchone()]
    tested for truth. *)
Definition select_exists (scimId : option string) (userName : string) (d : db) : bool :=
  existsb (fun r => sql_eq (r_scimId r) scimId || String.eqb (r_userName r) userName)
          (users d).

(** [SELECT ... FROM users WHERE id = ?], [fetchone()]. *)
Definition select_by_id (id : option string) (d : db) : option row :=
  List.find (fun r => sql_eq (Some (r_id r)) id) (users d).

(** [INSERT INTO users ... VALUES (...)]: the primary key and the [UNIQUE]
    column reject duplicates. *)
Definition insert_user (r : row) (d : db) : result db :=
  if existsb (fun r' => String.eqb (r_id r') (r_id r)
                        || String.eqb (r_userName r') (r_userName r)) (users d)
  then Raise IntegrityError
  else Return {| users := (users d ++ [r])%list; metrics := metrics d |}.

(** [Update users SET mailcowId = ?, scimId = ?, active = ?, userName = ?,
    displayName = ?, emails = ? WHERE id = ?]. *)
Definition set_fields (mailcowId scimId : option string) (active : Z)
    (userName : string) (displayName : option string) (emails : list json)
    (r : row) : row :=
  {| r_id := r_id r; r_mailcowId := mailcowId; r_scimId := scimId;
     r_active := active; r_userName := userName;
     r_displayName := displayName; r_emails := emails |}.

Definition update_users (mailcowId scimId : option string) (active : Z)
    (userName : string) (displayName : option string) (emails : list json)
    (id : option string) (d : db) : result db :=
  if existsb (fun r => sql_eq (Some (r_id r)) id) (users d) then
    if existsb (fun r => negb (sql_eq (Some (r_id r)) id)
                         && String.eqb (r_userName r) userName) (users d)
    then Raise IntegrityError
    else Return {| users :=
                     map (fun r => if sql_eq (Some (r_id r)) id
                                   then set_fields mailcowId scimId active
                                                   userName displayName emails r
                                   else r) (users d);
                   metrics := metrics d |}
  else Return d.

(** [DELETE FROM users WHERE id = ?]. *)
Definition delete_users (id : option string) (d : db) : db :=
  {| users := List.filter (fun r => negb (sql_eq (Some (r_id r)) id)) (users d);
     metrics := metrics d |}.

(** [SELECT ... FROM users LIMIT ? OFFSET ?]: a negative limit is no limit. *)
Definition select_page (limit offset : Z) (d : db) : list row :=
  let rest := drop (Z.to_nat offset) (users d) in
  if (limit <? 0)%Z then rest else take (Z.to_nat limit) rest.

(** *** Parameter binding *)

(** An [int] parameter must fit SQLite's 64-bit INTEGER. *)
Definition bind_int (n : Z) : result Z :=
  if ((- 2 ^ 63 <=? n) && (n <? 2 ^ 63))%Z then Return n else Raise OverflowError.

(** A Python value bound to a [TEXT] column: [None] is [NULL], a [str] is
    stored as it is, an [int] or [bool] is stored as its decimal text,
    a [list] or [dict] is not a supported parameter type. *)
Definition bind_text (v : json) : result (option string) :=
  match v with
  | JNull => Return None
  | JStr s => Return (Some s)
  | JNum n => n' <-? bind_int n ;; Return (Some (NilZero.string_of_int (Z.to_int n')))
  | JBool b => Return (Some (if b then "1" else "0"))
  | JArr _ => Raise ProgrammingError
  | JObj _ => Raise ProgrammingError
  end.

(** A bare [str] passed where the parameter sequence is expected: the
    sequence is the string's characters, and their number must be the
    number of placeholders. *)
Definition bind_str_as_sequence (placeholders : nat) (s : string) : result (list string) :=
  let chars := map (fun c => String c EmptyString) (list_ascii_of_string s) in
  if Nat.eqb (length chars) placeholders then Return chars
  else Raise ProgrammingError.

(** ** The monad of the operations *)

Record request : Type := {
  url : string;
  payload : option json
}.

(** An HTTP response; [body = None] when the text is not JSON, that is when
    [resp.json()] raises [ValueError]. *)
Record response : Type := {
  status : Z;
  body : option json
}.

(** [disk] is the committed database; [txn] is what the open connection
    sees (the disk plus its uncommitted statements); [commits] counts
    [dbconn.commit()]; [calls] lists the requests sent so far. *)
Record state : Type := {
  disk : db;
  txn : db;
  commits : nat;
  calls : list request
}.

Definition M (A : Type) : Type := state -> result A * state.

Definition ret {A} (a : A) : M A := fun s => (Return a, s).
Definition raise {A} (e : exn) : M A := fun s => (Raise e, s).
Definition bind {A B} (m : M A) (k : A -> M B) : M B :=
  fun s => match m s with
           | (Return a, s') => k a s'
           | (Raise e, s') => (Raise e, s')
           end.
Definition lift {A} (r : result A) : M A := fun s => (r, s).

Notation "x <- m ;; k" := (bind m (fun x => k))
  (at level 100, m at next level, right associativity).
Notation "m ;;; k" := (bind m (fun _ => k))
  (at level 100, right associativity).

(** [sqlite3.connect(DB_PATH)]: a new connection sees the committed data. *)
Definition connect : M unit :=
  fun s => (Return tt, {| disk := disk s; txn := disk s;
                          commits := commits s; calls := calls s |}).

(** [dbconn.commit()]. *)
Definition commit : M unit :=
  fun s => (Return tt, {| disk := txn s; txn := txn s;
                          commits := S (commits s); calls := calls s |}).

(** [dbconn.close()]: statements not committed are rolled back. *)
Definition close : M unit :=
  fun s => (Return tt, {| disk := disk s; txn := disk s;
                          commits := commits s; calls := calls s |}).

(** A [SELECT] on the connection. *)
Definition query {A} (q : db -> A) : M A :=
  fun s => (Return (q (txn s)), s).

(** An [INSERT] / [UPDATE] / [DELETE] on the connection. *)
Definition execute (stmt : db -> result db) : M unit :=
  fun s => match stmt (txn s) with
           | Return d => (Return tt, {| disk := disk s; txn := d;
                                        commits := commits s; calls := calls s |})
           | Raise e => (Raise e, s)
           end.

(** A fresh state for one request against the database [d]. *)
Definition start (d : db) : state :=
  {| disk := d; txn := d; commits := 0; calls := [] |}.

(** ** SCIM models *)

(** [class SCIMUser(BaseModel)], after validation of a request body. *)
Record SCIMUser : Type := {
  u_schemas : list json;
  u_id : option string;
  u_externalId : option string;
  u_active : bool;
  u_userName : string;
  u_displayName : option string;
  u_emails : list json
}.

(** [class SCIMListResponse(BaseModel)]. *)
Record SCIMListResponse : Type := {
  l_schemas : list json;
  totalResults : Z;
  itemsPerPage : Z;
  startIndex : Z;
  Resources : list SCIMUser
}.

(** What a name can denote where the code passes it as [id=...]: a value,
    or a function of the [builtins] module. *)
Inductive pyobj : Type :=
| Obj (v : json)
| BuiltinFunction (name : string).

(** Validation of a field declared [Optional[str]]. *)
Definition validate_optional_str (o : pyobj) : result (option string) :=
  match o with
  | Obj JNull => Return None
  | Obj (JStr s) => Return (Some s)
  | _ => Raise ValidationError
  end.

(** [SCIMUser(schemas=..., id=..., externalId=..., active=..., userName=...,
    displayName=..., emails=...)] with column values for the other fields. *)
Definition SCIMUser_init (schemas : list json) (id : pyobj)
    (externalId : option string) (active : bool) (userName : string)
    (displayName : option string) (emails : list json) : result SCIMUser :=
  id' <-? validate_optional_str id ;;
  Return {| u_schemas := schemas; u_id := id'; u_externalId := externalId;
            u_active := active; u_userName := userName;
            u_displayName := displayName; u_emails := emails |}.

(** [user.id = value]. *)
Definition set_id (user : SCIMUser) (value : option string) : SCIMUser :=
  {| u_schemas := u_schemas user; u_id := value;
     u_externalId := u_externalId user; u_active := u_active user;
     u_userName := u_userName user; u_displayName := u_displayName user;
     u_emails := u_emails user |}.

(** The [detail] of the [HTTPException]s the operations raise. *)
Definition scim_error (status scimType detail : string) : json :=
  JObj [("schemas", JArr [JStr "urn:ietf:params:scim:api:messages:2.0:Error"]);
        ("status", JStr status);
        ("scimType", JStr scimType);
        ("detail", JStr detail)].

(** A nullable column value as a Python value, and [str(...)] of an
    optional string inside an f-string. *)
Definition of_opt (o : option string) : json :=
  match o with Some s => JStr s | None => JNull end.

Definition fmt (o : option string) : string :=
  match o with Some s => s | None => "None" end.

(** [v != t] where [t] was read from a [TEXT] column. *)
Definition ne_text (v : json) (t : option string) : bool :=
  match v, t with
  | JStr a, Some b => negb (String.eqb a b)
  | JNull, None => false
  | _, _ => true
  end.

(** [code == 200 and resp and resp[0]["type"] == "success"]. *)
Definition is_success (code : Z) (resp : json) : result bool :=
  if negb (code =? 200)%Z then Return false
  else if negb (truthy resp) then Return false
  else
    first <-? getitem_int resp 0 ;;
    ty <-? getitem_str first "type" ;;
    Return (eq_str ty "success").

(** [resp[0]["msg"][1]]. *)
Definition resulting_mailbox (resp : json) : result json :=
  first <-? getitem_int resp 0 ;;
  msg <-? getitem_str first "msg" ;;
  getitem_int msg 1.

Section Bridge.

Variable cfg : config.

(** The Mailcow server: the response it gives to each request. *)
Variable remote : request -> response.

(** ** Mailcow helpers *)

(** [await client.post(url, headers=headers, json=data)]. *)
Definition post (path : string) (data : option json) : M response :=
  fun s =>
    let req := {| url := MAILCOW_API_URL cfg +:+ path; payload := data |} in
    (Return (remote req),
     {| disk := disk s; txn := txn s; commits := commits s;
        calls := (calls s ++ [req])%list |}).

(** [try: return resp.status_code, resp.json()
     except ValueError: return resp.status_code, None]. *)
Definition status_and_json_or_None (resp : response) : M (Z * json) :=
  match body resp with
  | Some j => ret (status resp, j)
  | None => ret (status resp, JNull)
  end.

(** [return resp.status_code, resp.json()]. *)
Definition status_and_json (resp : response) : M (Z * json) :=
  match body resp with
  | Some j => ret (status resp, j)
  | None => raise ValueError
  end.

Definition get_mailbox (id : string) : M (Z * json) :=
  resp <- post ("get/mailbox/" +:+ id) None ;;
  status_and_json_or_None resp.

Definition create_mailbox (local_part domain : string) (name : option string)
  : M (Z * json) :=
  let data := JObj [("active", JStr "1");
                    ("domain", JStr domain);
                    ("local_part", JStr local_part);
                    ("name", of_opt name);
                    ("authsource", JStr "generic-oidc");
                    ("password", JStr "");
                    ("password2", JStr "");
                    ("quota", JStr "3072");
                    ("force_pw_update", JStr "0");
                    ("tls_enforce_in", JStr "1");
                    ("tls_enforce_out", JStr "1");
                    ("tags", JArr [JStr "scim"])] in
  resp <- post "add/mailbox" (Some data) ;;
  status_and_json_or_None resp.

Definition update_mailbox (id : json) (active : option bool)
    (name : option string) (tags : option (list json)) : M (Z * json) :=
  let attr :=
    (match active with
     | Some a => [("active", JStr (if a then "1" else "0"))]
     | None => []
     end ++
     match name with
     | Some n => [("name", JStr n)]
     | None => []
     end ++
     match tags with
     | Some t => [("tags", JArr t)]
     | None => []
     end)%list in
  let data := JObj [("attr", JObj attr); ("items", JArr [id])] in
  resp <- post "edit/mailbox" (Some data) ;;
  status_and_json resp.

Definition rename_mailbox (id : json) (local_part domain : string) : M (Z * json) :=
  old_local_part <- lift (split_at_index id 0) ;;
  let attr := [("domain", JStr domain);
               ("old_local_part", JStr old_local_part);
               ("new_local_part", JStr local_part);
               ("create_alias", JStr "1")] in
  let data := JObj [("attr", JObj attr); ("items", JArr [id])] in
  resp <- post "edit/rename-mbox" (Some data) ;;
  status_and_json resp.

Definition delete_mailbox (id : json) : M (Z * json) :=
  resp <- post "delete/mailbox" (Some (JArr [id])) ;;
  status_and_json resp.

Definition upstream_error : exn :=
  HTTPException 502
    (scim_error "502" "serverError" "Request failed: upstream API returned an error").

Definition missing_emails : exn :=
  HTTPException 400
    (scim_error "400" "invalidSyntax" "Missing required attribute: emails").

Definition not_found (id : string) : exn :=
  HTTPException 404
    (scim_error "404" "notFound" ("User with id '" +:+ id +:+ "' not found")).

Definition conflict (user : SCIMUser) : exn :=
  HTTPException 409
    (scim_error "409" "uniqueness"
       ("User with id '" +:+ fmt (u_externalId user) +:+ "' or userName '"
          +:+ u_userName user +:+ "' already exists")).

Definition forbidden (id : string) : exn :=
  HTTPException 403
    (scim_error "403" "mutability"
       ("Deletion of user with id '" +:+ id +:+ "' is not allowed.")).

(** ** User operations *)

(** [fresh] is the value of [str(uuid.uuid4())] for this call. *)
Definition create_user (fresh : string) (user : SCIMUser) : M SCIMUser :=
  email <- lift (get_primary_mail (u_emails user)) ;;
  if negb (is_None email) then
    connect ;;;
    found <- query (select_exists (u_externalId user) (u_userName user)) ;;
    if found then
      close ;;; raise (conflict user)
    else
      local_part <- lift (split_at_index email 0) ;;
      domain <- lift (split_at_index email 1) ;;
      answer <- create_mailbox local_part domain (u_displayName user) ;;
      let '(code, resp) := answer in
      ok <- lift (is_success code resp) ;;
      if negb ok then
        close ;;; raise upstream_error
      else
        let user := set_id user (Some fresh) in
        mailbox <- lift (resulting_mailbox resp) ;;
        mailcowId <- lift (bind_text mailbox) ;;
        execute (insert_user
                   {| r_id := fresh; r_mailcowId := mailcowId;
                      r_scimId := u_externalId user;
                      r_active := if u_active user then 1 else 0;
                      r_userName := u_userName user;
                      r_displayName := u_displayName user;
                      r_emails := u_emails user |}) ;;;
        execute (fun d => Return (incr_metric "users_created" d)) ;;;
        commit ;;;
        close ;;;
        ret user
  else
    raise missing_emails.

Definition user_schema : list json :=
  [JStr "urn:ietf:params:scim:schemas:core:2.0:User"].

Definition get_user (id : string) : M SCIMUser :=
  connect ;;;
  r <- query (select_by_id (Some id)) ;;
  match r with
  | None => close ;;; raise (not_found id)
  | Some r =>
      user <- lift (SCIMUser_init user_schema (Obj (JStr id)) (r_scimId r)
                      (negb (r_active r =? 0)%Z) (r_userName r)
                      (r_displayName r) (r_emails r)) ;;
      close ;;;
      ret user
  end.

(** The loop of [get_users].  No variable [id] is bound in [get_users] or
    in the module, so the name denotes the builtin function. *)
Fixpoint resources_loop (rows : list row) (resources : list SCIMUser)
  : result (list SCIMUser) :=
  match rows with
  | [] => Return resources
  | r :: rest =>
      user <-? SCIMUser_init user_schema (BuiltinFunction "id") (r_scimId r)
                 (negb (r_active r =? 0)%Z) (r_userName r)
                 (r_displayName r) (r_emails r) ;;
      resources_loop rest (resources ++ [user])%list
  end.

Definition get_users (index count : Z) : M SCIMListResponse :=
  connect ;;;
  let offset := Z.max (index - 1) 0 in
  total <- query (fun d => Z.of_nat (length (users d))) ;;
  limit <- lift (bind_int count) ;;
  offset' <- lift (bind_int offset) ;;
  rows <- query (select_page limit offset') ;;
  resources <- lift (resources_loop rows []) ;;
  close ;;;
  ret {| l_schemas := [JStr "urn:ietf:params:scim:api:messages:2.0:ListResponse"];
         totalResults := total;
         itemsPerPage := Z.of_nat (length resources);
         startIndex := index;
         Resources := resources |}.

(** Both statements of [delete_user] pass [(id)], the string itself, as
    their parameters. *)
Definition delete_row_and_count (id : string) : M unit :=
  params <- lift (bind_str_as_sequence 1 id) ;;
  execute (fun d => Return (delete_users (nth_error params 0) d)) ;;;
  execute (fun d => Return (incr_metric "users_deleted" d)) ;;;
  commit ;;;
  close.

Definition delete_user (id : string) : M unit :=
  if negb (ALLOW_DELETE cfg) then
    raise (forbidden id)
  else
    connect ;;;
    params <- lift (bind_str_as_sequence 1 id) ;;
    r <- query (select_by_id (nth_error params 0)) ;;
    match r with
    | None => close ;;; raise (not_found id)
    | Some r =>
        if MAILCOW_DELETE_MAILBOX cfg then
          answer <- delete_mailbox (of_opt (r_mailcowId r)) ;;
          let '(code, resp) := answer in
          ok <- lift (is_success code resp) ;;
          if negb ok then
            close ;;; raise upstream_error
          else
            delete_row_and_count id
        else
          delete_row_and_count id
    end.

Definition update_user (id : string) (user : SCIMUser) : M SCIMUser :=
  email <- lift (get_primary_mail (u_emails user)) ;;
  if negb (is_None email) then
    connect ;;;
    r <- query (select_by_id (Some id)) ;;
    match r with
    | None => close ;;; raise (not_found id)
    | Some r =>
        let mailcow_id := r_mailcowId r in
        answer <- update_mailbox (of_opt mailcow_id) (Some (u_active user))
                            (u_displayName user) None ;;
        let '(code, resp) := answer in
        ok <- lift (is_success code resp) ;;
        if negb ok then
          close ;;; raise upstream_error
        else
          mailcow_id' <-
            (if ne_text email mailcow_id then
               local_part <- lift (split_at_index email 0) ;;
               domain <- lift (split_at_index email 1) ;;
               answer <- rename_mailbox (of_opt mailcow_id) local_part domain ;;
               let '(code, resp) := answer in
               ok <- lift (is_success code resp) ;;
               if negb ok then
                 close ;;; raise upstream_error
               else
                 lift (resulting_mailbox resp)
             else ret (of_opt mailcow_id)) ;;
          mailcowId <- lift (bind_text mailcow_id') ;;
          execute (update_users mailcowId (u_externalId user)
                     (if u_active user then 1 else 0) (u_userName user)
                     (u_displayName user) (u_emails user) (u_id user)) ;;;
          execute (fun d => Return (incr_metric "users_updated" d)) ;;;
          commit ;;;
          close ;;;
          ret user
    end
  else
    raise missing_emails.

End Bridge.

(** ** Vocabulary of the specification *)

(** A success of the remote API, in the words of the specification: the
    status is 200, the body is a non-empty list and the type of its first
    element is ["success"]. *)
Definition remote_success (resp : response) : bool :=
  (status resp =? 200)%Z
  && match body resp with
     | Some (JArr (JObj fields :: _)) =>
         match assoc "type" fields with
         | Some ty => eq_str ty "success"
         | None => false
         end
     | _ => false
     end.

(** A remote failure is any other outcome. *)
Definition remote_failure (resp : response) : bool :=
  negb (remote_success resp).

(** The remote failures on which the test of the code evaluates to [False]:
    the status is not 200, or the body is not JSON or is empty, or the first
    element is an object whose type is present and is not ["success"]. *)
Definition empty_body (j : json) : bool :=
  match j with
  | JNull | JArr [] | JObj [] | JStr EmptyString => true
  | _ => false
  end.

Definition first_type (j : json) : option json :=
  match j with
  | JArr (JObj fields :: _) => assoc "type" fields
  | _ => None
  end.

Definition reported_failure (resp : response) : bool :=
  negb (status resp =? 200)%Z
  || match body resp with
     | None => true
     | Some j =>
         empty_body j
         || match first_type j with
            | Some ty => negb (eq_str ty "success")
            | None => false
            end
     end.


(** The three counters exist, as they do once the module is imported. *)
Definition metrics_ready (d : db) : Prop :=
  is_Some (metrics d !! "users_created")
  /\ is_Some (metrics d !! "users_updated")
  /\ is_Some (metrics d !! "users_deleted").


(** The user operations behind the five [/Users] endpoints. *)
Inductive operation : Type :=
| OpCreate (fresh : string) (user : SCIMUser)
| OpRead (id : string)
| OpList (index count : Z)
| OpUpdate (id : string) (user : SCIMUser)
| OpDelete (id : string).

Definition counter_of (o : operation) : option string :=
  match o with
  | OpCreate _ _ => Some "users_created"
  | OpUpdate _ _ => Some "users_updated"
  | OpDelete _ => Some "users_deleted"
  | OpRead _ | OpList _ _ => None
  end.

Definition succeeded {A} (r : result A) : bool :=
  match r with Return _ => true | Raise _ => false end.

Definition outcome {A} (x : result A * state) : bool * state :=
  (succeeded (fst x), snd x).

(** One request served against the database [d]: whether it returned, and
    the state it left. *)
Definition perform (cfg : config) (remote : request -> response)
    (o : operation) (d : db) : bool * state :=
  match o with
  | OpCreate fresh user => outcome (create_user cfg remote fresh user (start d))
  | OpRead id => outcome (get_user id (start d))
  | OpList index count => outcome (get_users index count (start d))
  | OpUpdate id user => outcome (update_user cfg remote id user (start d))
  | OpDelete id => outcome (delete_user cfg remote id (start d))
  end.

(** ** Sample data *)

Definition sample_cfg : config :=
  {| MAILCOW_API_URL := "https://mail.example.com/api/v1/";
     ALLOW_DELETE := true;
     MAILCOW_DELETE_MAILBOX := false |}.

Definition success_body (mailbox : string) : json :=
  JArr [JObj [("type", JStr "success");
              ("msg", JArr [JStr "mailbox_modified"; JStr mailbox])]].

(** A server that accepts everything. *)
Definition remote_ok (mailbox : string) (req : request) : response :=
  {| status := 200; body := Some (success_body mailbox) |}.

(** A server (or a proxy in front of it) that answers with an HTML page. *)
Definition remote_down (req : request) : response :=
  {| status := 502; body := None |}.

(** A server that accepts the edit and answers everything else with an
    HTML page. *)
Definition remote_edit_only (req : request) : response :=
  if String.eqb (url req) (MAILCOW_API_URL sample_cfg +:+ "edit/mailbox")
  then remote_ok "alice@example.com" req
  else remote_down req.

Definition empty_db : db := bootstrap {| users := []; metrics := ∅ |}.

Definition alice_emails : list json :=
  [JObj [("value", JStr "alice@example.com"); ("primary", JBool true)]].

Definition alice : SCIMUser :=
  {| u_schemas := user_schema; u_id := None; u_externalId := Some "ext-1";
     u_active := true; u_userName := "alice"; u_displayName := Some "Alice";
     u_emails := alice_emails |}.

Definition alice_id : string := "3f2b8c1e-5d4a-4e6b-9c7d-1a2b3c4d5e6f".

Definition alice_row : row :=
  {| r_id := alice_id; r_mailcowId := Some "alice@example.com";
     r_scimId := Some "ext-1"; r_active := 1; r_userName := "alice";
     r_displayName := Some "Alice"; r_emails := alice_emails |}.

Definition alice_db : db := bootstrap {| users := [alice_row]; metrics := ∅ |}.

(** A PUT body for alice: new address, new display name, deactivated, and
    no [id] member. *)
Definition alice_renamed : SCIMUser :=
  {| u_schemas := user_schema; u_id := None; u_externalId := Some "ext-1";
     u_active := false; u_userName := "alice"; u_displayName := Some "Alice B";
     u_emails := [JObj [("value", JStr "alice.b@example.com");
                        ("primary", JBool true)]] |}.

(** ** Module start-up: the environment *)

(** [sep.join(l)]. *)
Fixpoint join (sep : string) (l : list string) : string :=
  match l with
  | [] => ""
  | [x] => x
  | x :: rest => x +:+ sep +:+ join sep rest
  end.

(** [not v] for the value of [os.getenv(name)]: unset, or set to the empty
    string. *)
Definition unset_or_empty (v : option string) : bool :=
  match v with
  | None => true
  | Some s => String.eqb s ""
  end.

(** Truth of [os.getenv(name, default)] for a Boolean [default]: a variable
    that is set yields its text, which is true unless empty. *)
Definition getenv_truth (env : gmap string string) (name : string)
    (default : bool) : bool :=
  match env !! name with
  | Some s => negb (String.eqb s "")
  | None => default
  end.

(** [os.getenv(name, default)] for a text [default]. *)
Definition getenv_text (env : gmap string string) (name default : string) : string :=
  match env !! name with
  | Some s => s
  | None => default
  end.

Definition REQUIRED_ENV_VARS (env : gmap string string)
  : list (string * option string) :=
  [("SCIM_TOKEN", env !! "SCIM_TOKEN");
   ("MAILCOW_API_URL", env !! "MAILCOW_API_URL");
   ("MAILCOW_API_KEY", env !! "MAILCOW_API_KEY")].

(** [[k for k, v in REQUIRED_ENV_VARS.items() if not v]]. *)
Definition missing (env : gmap string string) : list string :=
  map fst (List.filter (fun kv => unset_or_empty (snd kv)) (REQUIRED_ENV_VARS env)).

(** The module-level exception of the start-up code. *)
Inductive startup_error : Type :=
| RuntimeError (message : string).

(** The globals the module defines from the environment. *)
Record settings : Type := {
  DB_PATH : string;
  SCIM_TOKEN : string;
  MAILCOW_API_KEY : string;
  SKIP_VERIFY_CERTIFICATE : bool;
  bridge_config : config
}.

(** The start-up code up to the creation of the application, with the
    environment as [load_dotenv()] left it. *)
Definition load_settings (env : gmap string string) : startup_error + settings :=
  match missing env with
  | [] =>
      inr {| DB_PATH := getenv_text env "DB_PATH" "/data/data.db";
             SCIM_TOKEN := getenv_text env "SCIM_TOKEN" "";
             MAILCOW_API_KEY := getenv_text env "MAILCOW_API_KEY" "";
             SKIP_VERIFY_CERTIFICATE :=
               getenv_truth env "SKIP_VERIFY_CERTIFICATE" false;
             bridge_config :=
               {| MAILCOW_API_URL := getenv_text env "MAILCOW_API_URL" "";
                  ALLOW_DELETE := getenv_truth env "ALLOW_DELETE" true;
                  MAILCOW_DELETE_MAILBOX :=
                    getenv_truth env "MAILCOW_DELETE_MAILBOX" false |} |}
  | names =>
      inl (RuntimeError ("Missing required environment variables: "
                           +:+ join ", " names))
  end.

(** [get_async_client()]: whether the client it builds verifies
    certificates. *)
Definition get_async_client (s : settings) : bool :=
  if SKIP_VERIFY_CERTIFICATE s then false else true.

(** ** Metrics exposition *)

(** [f"{value}"] for an [int]. *)
Definition str_int (n : Z) : string := NilZero.string_of_int (Z.to_int n).

(** The three lines appended for one row of [metrics]. *)
Definition metric_lines (r : string * Z) : list string :=
  let (name, value) := r in
  ["# HELP " +:+ name +:+ " SCIM metric for " +:+ name;
   "# TYPE " +:+ name +:+ " counter";
   name +:+ " " +:+ str_int value].

Definition newline : string := String (ascii_of_nat 10) EmptyString.

(** [get_metrics()].  [SELECT name, value FROM metrics] has no [ORDER BY]:
    [fetchall] stands for the order in which SQLite hands out the rows. *)
Definition get_metrics (fetchall : gmap string Z -> list (string * Z)) : M string :=
  connect ;;;
  rows <- query (fun d => fetchall (metrics d)) ;;
  let lines := flat_map metric_lines rows in
  close ;;;
  ret (join newline lines).

(** ** Endpoints *)

(** [class SCIMGroup(BaseModel)]. *)
Record SCIMGroup : Type := {
  g_schemas : list json;
  g_id : option string;
  g_externalId : option string;
  g_displayName : string;
  g_members : option (list json)
}.

(** [HTTPException(status.HTTP_401_UNAUTHORIZED)]: without a [detail] the
    exception carries the phrase of its status. *)
Definition unauthorized : exn := HTTPException 401 (JStr "Unauthorized").

Section Endpoints.

Variable token : string.
Variable cfg : config.
Variable remote : request -> response.

(** [authorization != f"Bearer {SCIM_TOKEN}"], negated; an absent header
    is [None]. *)
Definition bearer_ok (authorization : option string) : bool :=
  match authorization with
  | Some a => String.eqb a ("Bearer " +:+ token)
  | None => false
  end.

Definition healthz_endpoint : M json :=
  ret (JObj [("status", JStr "running")]).

Definition metrics_endpoint (fetchall : gmap string Z -> list (string * Z))
  : M string :=
  get_metrics fetchall.

Definition get_user_endpoint (user_id : string) (authorization : option string)
  : M SCIMUser :=
  if negb (bearer_ok authorization) then raise unauthorized
  else get_user user_id.

Definition get_users_endpoint (index count : Z) (authorization : option string)
  : M SCIMListResponse :=
  if negb (bearer_ok authorization) then raise unauthorized
  else get_users index count.

Definition post_user_endpoint (fresh : string) (user : SCIMUser)
    (authorization : option string) : M SCIMUser :=
  if negb (bearer_ok authorization) then raise unauthorized
  else
    user <- create_user cfg remote fresh user ;;
    ret user.

Definition put_user_endpoint (user_id : string) (user : SCIMUser)
    (authorization : option string) : M SCIMUser :=
  if negb (bearer_ok authorization) then raise unauthorized
  else
    user <- update_user cfg remote user_id user ;;
    ret user.

Definition delete_user_endpoint (user_id : string) (authorization : option string)
  : M unit :=
  if negb (bearer_ok authorization) then raise unauthorized
  else delete_user cfg remote user_id.

Definition get_group_endpoint (group_id : string) (authorization : option string)
  : M SCIMGroup :=
  if negb (bearer_ok authorization) then raise unauthorized
  else
    ret {| g_schemas := [JStr "urn:ietf:params:scim:schemas:core:2.0:Group"];
           g_id := Some group_id;
           g_externalId := None;
           g_displayName := group_id;
           g_members := Some [] |}.

Definition get_groups_endpoint (index count : Z) (authorization : option string)
  : M SCIMListResponse :=
  if negb (bearer_ok authorization) then raise unauthorized
  else
    ret {| l_schemas := [JStr "urn:ietf:params:scim:api:messages:2.0:ListResponse"];
           totalResults := 0;
           itemsPerPage := 0;
           startIndex := index;
           Resources := [] |}.

Definition post_group_endpoint (group : SCIMGroup) (authorization : option string)
  : M SCIMGroup :=
  if negb (bearer_ok authorization) then raise unauthorized
  else ret group.

(** The handler of [PUT /Groups/{group_id}]. *)
Definition put_group_endpoint (group_id : string) (group : SCIMGroup)
    (authorization : option string) : M SCIMGroup :=
  if negb (bearer_ok authorization) then raise unauthorized
  else ret group.

(** The handler of [DELETE /Groups/{group_id}]. *)
Definition delete_group_endpoint (group_id : string)
    (authorization : option string) : M unit :=
  if negb (bearer_ok authorization) then raise unauthorized
  else ret tt.

(** A request to one of the endpoints that ask for the bearer token. *)
Inductive scim_call : Type :=
| CallGetUser (user_id : string)
| CallGetUsers (index count : Z)
| CallPostUser (fresh : string) (user : SCIMUser)
| CallPutUser (user_id : string) (user : SCIMUser)
| CallDeleteUser (user_id : string)
| CallGetGroup (group_id : string)
| CallGetGroups (index count : Z)
| CallPostGroup (group : SCIMGroup)
| CallPutGroup (group_id : string) (group : SCIMGroup)
| CallDeleteGroup (group_id : string).

(** What a handler returns, whatever its type. *)
Inductive reply : Type :=
| ReplyUser (user : SCIMUser)
| ReplyList (l : SCIMListResponse)
| ReplyGroup (group : SCIMGroup)
| ReplyNone.

Definition as_reply {A} (f : A -> reply) (m : M A) : M reply :=
  x <- m ;; ret (f x).

(** The routing table: each call goes to its handler. *)
Definition serve (c : scim_call) (authorization : option string) : M reply :=
  match c with
  | CallGetUser user_id => as_reply ReplyUser (get_user_endpoint user_id authorization)
  | CallGetUsers index count =>
      as_reply ReplyList (get_users_endpoint index count authorization)
  | CallPostUser fresh user =>
      as_reply ReplyUser (post_user_endpoint fresh user authorization)
  | CallPutUser user_id user =>
      as_reply ReplyUser (put_user_endpoint user_id user authorization)
  | CallDeleteUser user_id =>
      as_reply (fun _ => ReplyNone) (delete_user_endpoint user_id authorization)
  | CallGetGroup group_id =>
      as_reply ReplyGroup (get_group_endpoint group_id authorization)
  | CallGetGroups index count =>
      as_reply ReplyList (get_groups_endpoint index count authorization)
  | CallPostGroup group => as_reply ReplyGroup (post_group_endpoint group authorization)
  | CallPutGroup group_id group =>
      as_reply ReplyGroup (put_group_endpoint group_id group authorization)
  | CallDeleteGroup group_id =>
      as_reply (fun _ => ReplyNone) (delete_group_endpoint group_id authorization)
  end.

End Endpoints.

(** ** Sequences of operations *)

(** The store keeps its keys apart: no two records share an [id] or a
    [userName]. *)
Definition keys_unique (d : db) : Prop :=
  NoDup (map r_id (users d)) /\ NoDup (map r_userName (users d)).

(** Requests served one after the other, each against the database the
    previous one left on disk, each with the answers Mailcow gives at that
    time.  The result lists which requests returned. *)
Fixpoint perform_all (cfg : config)
    (steps : list (operation * (request -> response))) (d : db)
  : list bool * db :=
  match steps with
  | [] => ([], d)
  | (o, remote) :: rest =>
      let (ok, s') := perform cfg remote o d in
      let (oks, d') := perform_all cfg rest (disk s') in
      (ok :: oks, d')
  end.

(** How many of the requests that returned count on the counter [c]. *)
Fixpoint returned_on (c : string)
    (steps : list (operation * (request -> response))) (oks : list bool) : nat :=
  match steps, oks with
  | (o, _) :: steps', ok :: oks' =>
      (if ok && bool_decide (counter_of o = Some c) then 1 else 0)%nat
      + returned_on c steps' oks'
  | _, _ => 0%nat
  end.

Definition is_delete (o : operation) : bool :=
  match o with OpDelete _ => true | _ => false end.

(** The view of a stored record that [get_user] builds. *)
Definition view (r : row) : SCIMUser :=
  {| u_schemas := user_schema; u_id := Some (r_id r);
     u_externalId := r_scimId r; u_active := negb (r_active r =? 0)%Z;
     u_userName := r_userName r; u_displayName := r_displayName r;
     u_emails := r_emails r |}.

(** The record a request body describes, under a given key and mailbox. *)
Definition row_of (id : string) (mailcowId : option string) (user : SCIMUser) : row :=
  {| r_id := id; r_mailcowId := mailcowId; r_scimId := u_externalId user;
     r_active := if u_active user then 1 else 0;
     r_userName := u_userName user; r_displayName := u_displayName user;
     r_emails := u_emails user |}.


(** A second record next to alice's, and a PUT body for alice that takes
    the other record's userName. *)
Definition bob_row : row :=
  {| r_id := "0b0e7a52-77c1-4b5e-8d0a-6c1f2e3d4a5b";
     r_mailcowId := Some "bob@example.com"; r_scimId := Some "ext-2";
     r_active := 1; r_userName := "bob"; r_displayName := Some "Bob";
     r_emails := [JObj [("value", JStr "bob@example.com");
                        ("primary", JBool true)]] |}.

Definition two_db : db :=
  bootstrap {| users := [alice_row; bob_row]; metrics := ∅ |}.

Definition alice_as_bob : SCIMUser :=
  {| u_schemas := user_schema; u_id := Some alice_id;
     u_externalId := Some "ext-1"; u_active := true; u_userName := "bob";
     u_displayName := Some "Alice"; u_emails := alice_emails |}.

(** A one-character identifier, the only kind [delete_user] can look up. *)
Definition short_row : row :=
  {| r_id := "7"; r_mailcowId := Some "carol@example.com";
     r_scimId := None; r_active := 1; r_userName := "carol";
     r_displayName := None;
     r_emails := [JObj [("value", JStr "carol@example.com")]] |}.

Definition short_db : db :=
  bootstrap {| users := [alice_row; short_row]; metrics := ∅ |}.

Definition deleting_cfg : config :=
  {| MAILCOW_API_URL := "https://mail.example.com/api/v1/";
     ALLOW_DELETE := true;
     MAILCOW_DELETE_MAILBOX := true |}.

Definition readonly_cfg : config :=
  {| MAILCOW_API_URL := "https://mail.example.com/api/v1/";
     ALLOW_DELETE := false;
     MAILCOW_DELETE_MAILBOX := false |}.

(** A server that refuses with a JSON error. *)
Definition remote_refuses (req : request) : response :=
  {| status := 200;
     body := Some (JArr [JObj [("type", JStr "danger");
                               ("msg", JStr "access_denied")]]) |}.

(** A server that answers 200 with a bare error object. *)
Definition remote_error_object (req : request) : response :=
  {| status := 200;
     body := Some (JObj [("type", JStr "error");
                         ("msg", JStr "authentication failed")]) |}.

(** A server that reports success without a [msg]. *)
Definition remote_success_no_msg (req : request) : response :=
  {| status := 200; body := Some (JArr [JObj [("type", JStr "success")]]) |}.

(** A server that answers 200 with an element that has no [type]. *)
Definition remote_no_type (req : request) : response :=
  {| status := 200;
     body := Some (JArr [JObj [("msg", JStr "mailbox_quota_exceeded")]]) |}.


(** A third user, unknown to [two_db]. *)
Definition carol : SCIMUser :=
  {| u_schemas := user_schema; u_id := None; u_externalId := Some "ext-3";
     u_active := true; u_userName := "carol"; u_displayName := Some "Carol";
     u_emails := [JObj [("value", JStr "carol@example.com");
                        ("primary", JBool true)]] |}.

Definition carol_id : string := "9d3c5e7a-1b2f-4c6d-8e9f-0a1b2c3d4e5f".

(** An environment in which every flag is spelled ["false"]. *)
Definition sample_env : gmap string string :=
  {[ "SCIM_TOKEN" := "s3cret";
     "MAILCOW_API_URL" := "https://mail.example.com/api/v1/";
     "MAILCOW_API_KEY" := "key";
     "ALLOW_DELETE" := "false";
     "MAILCOW_DELETE_MAILBOX" := "false";
     "SKIP_VERIFY_CERTIFICATE" := "false" ]}.

Definition sample_settings : settings :=
  {| DB_PATH := "/data/data.db"; SCIM_TOKEN := "s3cret";
     MAILCOW_API_KEY := "key"; SKIP_VERIFY_CERTIFICATE := true;
     bridge_config :=
       {| MAILCOW_API_URL := "https://mail.example.com/api/v1/";
          ALLOW_DELETE := true; MAILCOW_DELETE_MAILBOX := true |} |}.

(** A step that does not fail on a constraint of the database. *)
Definition sqlite_free {A} (r : result A) : Prop := r <> Raise IntegrityError.

(** ** Symbolic execution of the operations *)

Ltac run :=
  cbv [bind lift ret raise connect commit close query execute post
       status_and_json status_and_json_or_None
       get_mailbox create_mailbox update_mailbox rename_mailbox delete_mailbox
       delete_row_and_count start disk txn commits calls] in *;
  cbn [set_id u_schemas u_id u_externalId u_active u_userName u_displayName
       u_emails] in *.

Ltac branches := repeat case_match; simplify_eq; simpl; eauto 10.

Lemma pair_eta {A B} (x : A * B) a : fst x = a -> x = (a, snd x).
Proof. destruct x; simpl; congruence. Qed.

(** *** Counters at start-up *)

Lemma insert_metric_if_absent_lookup name name' d :
  is_Some (metrics d !! name') ->
  is_Some (metrics (insert_metric_if_absent name d) !! name').
Proof.
  unfold insert_metric_if_absent. destruct (metrics d !! name) eqn:E; [done|].
  simpl. intros H. rewrite lookup_insert. by case_decide.
Qed.

Lemma insert_metric_if_absent_self name d :
  is_Some (metrics (insert_metric_if_absent name d) !! name).
Proof.
  unfold insert_metric_if_absent. destruct (metrics d !! name) eqn:E.
  - by rewrite E.
  - simpl. by rewrite lookup_insert_eq.
Qed.

Lemma bootstrap_ready d : metrics_ready (bootstrap d).
Proof.
  unfold metrics_ready, bootstrap.
  auto using insert_metric_if_absent_lookup, insert_metric_if_absent_self.
Qed.

(** *** Statements *)

Lemma insert_user_inv r d d1 :
  insert_user r d = Return d1 ->
  (forall r', In r' (users d) -> r_id r' <> r_id r /\ r_userName r' <> r_userName r)
  /\ users d1 = (users d ++ [r])%list /\ metrics d1 = metrics d.
Proof.
  unfold insert_user. destruct (existsb _ _) eqn:E; [done|].
  intros [= <-]. split; [|done].
  intros r' Hin.
  assert (H : ~ exists x, In x (users d)
                /\ (r_id x =? r_id r) || (r_userName x =? r_userName r) = true).
  { rewrite <- existsb_exists, E. discriminate. }
  split; intros Heq; apply H; exists r'; (split; [done|]);
    rewrite Heq, String.eqb_refl; [done | apply orb_true_r].
Qed.

Lemma update_users_metrics m s a u n e k d d1 :
  update_users m s a u n e k d = Return d1 -> metrics d1 = metrics d.
Proof. unfold update_users. intros H. by branches. Qed.

Lemma bind_str_as_sequence_one id params :
  bind_str_as_sequence 1 id = Return params ->
  params = [id] /\ String.length id = 1%nat.
Proof.
  unfold bind_str_as_sequence.
  destruct id as [|c [|c' id']]; simpl; intros H; try discriminate.
  by simplify_eq.
Qed.

Lemma bind_str_as_sequence_other id :
  String.length id <> 1%nat ->
  bind_str_as_sequence 1 id = Raise ProgrammingError.
Proof.
  unfold bind_str_as_sequence.
  destruct id as [|c [|c' id']]; simpl; intros H; done.
Qed.

(** *** What each operation leaves behind *)

Lemma create_user_cases cfg remote fresh user d r s' :
  create_user cfg remote fresh user (start d) = (r, s') ->
  (exists mailcowId d1,
      r = Return (set_id user (Some fresh))
      /\ insert_user {| r_id := fresh; r_mailcowId := mailcowId;
                        r_scimId := u_externalId user;
                        r_active := if u_active user then 1 else 0;
                        r_userName := u_userName user;
                        r_displayName := u_displayName user;
                        r_emails := u_emails user |} d = Return d1
      /\ disk s' = incr_metric "users_created" d1
      /\ commits s' = 1%nat)
  \/ ((exists e, r = Raise e) /\ disk s' = d /\ commits s' = 0%nat).
Proof. unfold create_user. run. intros H. branches. Qed.

Lemma update_user_cases cfg remote id user d r s' :
  update_user cfg remote id user (start d) = (r, s') ->
  (exists mailcowId d1,
      r = Return user
      /\ update_users mailcowId (u_externalId user)
           (if u_active user then 1 else 0) (u_userName user)
           (u_displayName user) (u_emails user) (u_id user) d = Return d1
      /\ disk s' = incr_metric "users_updated" d1
      /\ commits s' = 1%nat)
  \/ ((exists e, r = Raise e) /\ disk s' = d /\ commits s' = 0%nat).
Proof. unfold update_user. run. intros H. branches. Qed.

Lemma delete_user_cases cfg remote id d r s' :
  delete_user cfg remote id (start d) = (r, s') ->
  (r = Return tt
   /\ disk s' = incr_metric "users_deleted" (delete_users (Some id) d)
   /\ commits s' = 1%nat)
  \/ ((exists e, r = Raise e) /\ disk s' = d /\ commits s' = 0%nat).
Proof.
  unfold delete_user. run. intros H. branches;
    repeat match goal with
           | B : bind_str_as_sequence 1 _ = Return _ |- _ =>
               apply bind_str_as_sequence_one in B; destruct B as [-> _]
           end; simpl; eauto 10.
Qed.

Lemma get_user_frame id d r s' :
  get_user id (start d) = (r, s') -> disk s' = d /\ commits s' = 0%nat.
Proof. unfold get_user. run. intros H. branches. Qed.

Lemma get_users_frame index count d r s' :
  get_users index count (start d) = (r, s') -> disk s' = d /\ commits s' = 0%nat.
Proof. unfold get_users. run. intros H. branches. Qed.

Lemma perform_cases cfg remote o d ok s' :
  perform cfg remote o d = (ok, s') ->
  (ok = true
   /\ exists d1, metrics d1 = metrics d
      /\ match counter_of o with
         | Some c => disk s' = incr_metric c d1 /\ commits s' = 1%nat
         | None => disk s' = d /\ commits s' = 0%nat
         end)
  \/ (ok = false /\ disk s' = d /\ commits s' = 0%nat).
Proof.
  destruct o as [fresh user | id | index count | id user | id];
    unfold perform, outcome; simpl counter_of.
  - destruct (create_user _ _ _ _ _) as [r s] eqn:E. intros [= <- <-].
    apply create_user_cases in E
      as [(m & d1 & -> & Hi & Hd & Hc) | ((e & ->) & Hd & Hc)]; [left|right; done].
    apply insert_user_inv in Hi as (_ & _ & Hm). eauto.
  - destruct (get_user _ _) as [r s] eqn:E. intros [= <- <-].
    apply get_user_frame in E as [Hd Hc].
    destruct r; simpl; [left|right]; eauto.
  - destruct (get_users _ _ _) as [r s] eqn:E. intros [= <- <-].
    apply get_users_frame in E as [Hd Hc].
    destruct r; simpl; [left|right]; eauto.
  - destruct (update_user _ _ _ _ _) as [r s] eqn:E. intros [= <- <-].
    apply update_user_cases in E
      as [(m & d1 & -> & Hu & Hd & Hc) | ((e & ->) & Hd & Hc)]; [left|right; done].
    apply update_users_metrics in Hu. eauto.
  - destruct (delete_user _ _ _ _) as [r s] eqn:E. intros [= <- <-].
    apply delete_user_cases in E
      as [(-> & Hd & Hc) | ((e & ->) & Hd & Hc)]; [left|right; done].
    split; [done|]. by exists (delete_users (Some id) d).
Qed.

(** *** Remote failures *)

Lemma failure_is_not_success resp :
  reported_failure resp = true ->
  is_success (status resp)
    (match body resp with Some j => j | None => JNull end) = Return false.
Proof.
  unfold reported_failure, is_success.
  destruct (status resp =? 200)%Z; simpl; [|done].
  destruct (body resp) as [j|]; simpl; [|done].
  destruct j as [| | | s | [|[| | | | |fields] l] | [|]]; simpl; try done.
  - by destruct s.
  - destruct (assoc "type" fields); simpl; [|done].
    by intros ->%negb_true_iff.
Qed.

(** *** The unflagged path of primary-address resolution *)

Lemma primary_loop_unflagged_last mails :
  mails <> [] -> primary_loop mails = Return None ->
  exists d, List.last mails JNull = JObj d.
Proof.
  induction mails as [|mail rest IH]; [done|]. intros _. simpl.
  destruct mail; simpl; try done.
  destruct (is_True _); simpl; [done|].
  destruct rest as [|mail' rest']; [eauto|].
  intros H. by apply IH.
Qed.

Lemma get_primary_mail_unflagged mails :
  mails <> [] -> primary_loop mails = Return None ->
  get_primary_mail mails = Raise KeyError.
Proof.
  intros Hne Hloop. unfold get_primary_mail.
  destruct mails as [|mail rest]; [done|].
  change (Z.of_nat (length (mail :: rest)) <? 1)%Z
    with (Z.pos (Pos.of_succ_nat (length rest)) <? 1)%Z.
  destruct (Z.ltb_spec (Z.pos (Pos.of_succ_nat (length rest))) 1); [lia|].
  rewrite Hloop. unfold rbind at 1. cbv zeta.
  destruct (primary_loop_unflagged_last (mail :: rest)) as [d Hd]; [done..|].
  by rewrite Hd.
Qed.

Lemma get_primary_mail_flagged_entry mails v :
  primary_loop mails = Return (Some v) -> get_primary_mail mails = Return v.
Proof.
  intros Hloop. unfold get_primary_mail.
  destruct mails as [|mail rest]; [done|].
  change (Z.of_nat (length (mail :: rest)) <? 1)%Z
    with (Z.pos (Pos.of_succ_nat (length rest)) <? 1)%Z.
  destruct (Z.ltb_spec (Z.pos (Pos.of_succ_nat (length rest))) 1); [lia|].
  by rewrite Hloop.
Qed.

Example get_primary_mail_flagged :
  get_primary_mail
    [JObj [("value", JStr "a@x"); ("primary", JBool false)];
     JObj [("value", JStr "b@x"); ("primary", JBool true)]] = Return (JStr "b@x").
Proof. reflexivity. Qed.

Example get_primary_mail_empty : get_primary_mail [] = Return JNull.
Proof. reflexivity. Qed.

(** *** Listing a page that holds a record *)

Lemma resources_loop_nonempty rows acc :
  rows <> [] -> resources_loop rows acc = Raise ValidationError.
Proof. destruct rows; done. Qed.

Lemma get_users_nonempty_page index count d :
  bind_int count = Return count ->
  bind_int (Z.max (index - 1) 0) = Return (Z.max (index - 1) 0) ->
  select_page count (Z.max (index - 1) 0) d <> [] ->
  fst (get_users index count (start d)) = Raise ValidationError.
Proof.
  intros Hc Ho Hp. unfold get_users. run. rewrite Hc, Ho.
  by rewrite resources_loop_nonempty.
Qed.

Lemma get_users_empty_page index count d :
  bind_int count = Return count ->
  bind_int (Z.max (index - 1) 0) = Return (Z.max (index - 1) 0) ->
  select_page count (Z.max (index - 1) 0) d = [] ->
  fst (get_users index count (start d))
  = Return {| l_schemas := [JStr "urn:ietf:params:scim:api:messages:2.0:ListResponse"];
              totalResults := Z.of_nat (length (users d));
              itemsPerPage := 0;
              startIndex := index;
              Resources := [] |}.
Proof.
  intros Hc Ho Hp. unfold get_users. run. by rewrite Hc, Ho, Hp.
Qed.

(** *** Deleting by an identifier that is not one character long *)

Lemma delete_user_id_length cfg remote id d :
  ALLOW_DELETE cfg = true -> String.length id <> 1%nat ->
  delete_user cfg remote id (start d) = (Raise ProgrammingError, start d).
Proof.
  intros Ha Hl. unfold delete_user. run.
  by rewrite Ha, bind_str_as_sequence_other.
Qed.

Lemma delete_user_one_char_unknown cfg remote c d :
  ALLOW_DELETE cfg = true ->
  select_by_id (Some (String c EmptyString)) d = None ->
  delete_user cfg remote (String c EmptyString) (start d)
  = (Raise (not_found (String c EmptyString)), start d).
Proof.
  intros Ha Hs. unfold delete_user. run. rewrite Ha. simpl.
  by rewrite Hs.
Qed.

(** *** A rename refused with a JSON body that the test evaluates to False *)

Lemma update_user_rename_failure_json cfg remote id user d r s' edit rename :
  update_user cfg remote id user (start d) = (r, s') ->
  calls s' = [edit; rename] ->
  reported_failure (remote rename) = true ->
  body (remote rename) <> None ->
  r = Raise upstream_error /\ disk s' = d /\ commits s' = 0%nat.
Proof.
  unfold update_user. run. intros H Hc Hf Hb.
  repeat case_match; simplify_eq; simpl in *; simplify_eq; eauto;
    apply failure_is_not_success in Hf;
    repeat match goal with
           | B : body _ = _ |- _ => rewrite B in Hf
           end; simpl in *; try congruence;
    match goal with
    | B : negb ?b = false |- _ => destruct b; simpl in *; congruence
    end.
Qed.

(** *** The identifier in the request body *)

Lemma create_user_ignores_id cfg remote fresh user client_id s :
  create_user cfg remote fresh (set_id user client_id) s
  = create_user cfg remote fresh user s.
Proof. reflexivity. Qed.

Lemma add_one_below v : (v < 2 ^ 63 - 1)%Z -> add_one v = (v + 1)%Z.
Proof. unfold add_one. intros H. destruct (Z.ltb_spec v (2 ^ 63 - 1)); [done|lia]. Qed.



(** ** Primary-address resolution *)

(** C1: primary-address resolution is claimed to return the value of the
    first entry when no entry is flagged primary, for instance ["a@x"] for
    the one-entry list [[{value: "a@x"}]].  On that list the function raises
    [KeyError]: its last line indexes the loop variable, a dict, with [0]. *)
Theorem get_primary_mail_single_unflagged :
  get_primary_mail [JObj [("value", JStr "a@x")]] = Raise KeyError.
Proof. reflexivity. Qed.

(** ** Create *)

(** The failures that the test of [create_user] evaluates to [False] are
    reported: the operation raises the 502 exception, the database is what
    it was and nothing was committed. *)
Lemma create_user_reported_failure cfg remote fresh user d r s' req :
  create_user cfg remote fresh user (start d) = (r, s') ->
  calls s' = [req] ->
  reported_failure (remote req) = true ->
  r = Raise upstream_error /\ disk s' = d /\ commits s' = 0%nat.
Proof.
  unfold create_user. run. intros H Hc Hf.
  repeat case_match; simplify_eq; simpl in *; simplify_eq; eauto;
    apply failure_is_not_success in Hf;
    repeat match goal with
           | B : body _ = _ |- _ => rewrite B in Hf
           end; simpl in *; try congruence;
    match goal with
    | B : negb ?b = false |- _ => destruct b; simpl in *; congruence
    end.
Qed.

(** C6: a creation whose remote call is a remote failure is claimed to fail
    with the 502 upstream error.  Two answers that are no success, with
    status 200: a bare error object, and a list whose first element has no
    [type].  On both [create_user] raises [KeyError] out of its own test
    instead of the 502; no record is inserted and nothing is committed. *)
Theorem create_user_unreported_failure :
  (forall req, remote_failure (remote_error_object req) = true)
  /\ fst (create_user sample_cfg remote_error_object alice_id alice
            (start empty_db)) = Raise KeyError
  /\ disk (snd (create_user sample_cfg remote_error_object alice_id alice
                  (start empty_db))) = empty_db
  /\ (forall req, remote_failure (remote_no_type req) = true)
  /\ fst (create_user sample_cfg remote_no_type alice_id alice
            (start empty_db)) = Raise KeyError
  /\ disk (snd (create_user sample_cfg remote_no_type alice_id alice
                  (start empty_db))) = empty_db.
Proof. split_and!; try (intros req); vm_compute; reflexivity. Qed.




(** C10: when [create_user] returns, the returned resource carries the
    identifier generated for this call; that identifier was not a key of the
    store before and is the key of the one record added; and whatever [id]
    the request body carried, the outcome is the same. *)
Theorem create_user_assigns_fresh_id cfg remote fresh user d u' s' :
  create_user cfg remote fresh user (start d) = (Return u', s') ->
  u_id u' = Some fresh
  /\ (forall r, In r (users d) -> r_id r <> fresh)
  /\ (exists r, users (disk s') = (users d ++ [r])%list /\ r_id r = fresh)
  /\ (forall client_id,
        create_user cfg remote fresh (set_id user client_id) (start d)
        = (Return u', s')).
Proof.
  intros H. split_and!.
  - apply create_user_cases in H as [(m & d1 & [= ->] & _) | ((e & ?) & _)]; done.
  - apply create_user_cases in H as [(m & d1 & _ & Hi & _) | ((e & ?) & _)]; [|done].
    apply insert_user_inv in Hi as (Hi & _). intros r Hr. by apply Hi in Hr as [? _].
  - apply create_user_cases in H as [(m & d1 & _ & Hi & -> & _) | ((e & ?) & _)]; [|done].
    apply insert_user_inv in Hi as (_ & Hu & _). simpl. rewrite Hu. eauto.
  - intros c. by rewrite create_user_ignores_id.
Qed.

Lemma create_user_assigns_fresh_id_witness :
  u_id (set_id alice (Some alice_id)) = Some alice_id
  /\ (forall r, In r (users empty_db) -> r_id r <> alice_id)
  /\ (exists r,
        users (disk (snd (create_user sample_cfg (remote_ok "alice@example.com")
                            alice_id alice (start empty_db))))
        = (users empty_db ++ [r])%list /\ r_id r = alice_id)
  /\ (forall client_id,
        create_user sample_cfg (remote_ok "alice@example.com") alice_id
          (set_id alice client_id) (start empty_db)
        = (Return (set_id alice (Some alice_id)),
           snd (create_user sample_cfg (remote_ok "alice@example.com")
                  alice_id alice (start empty_db)))).
Proof.
  apply (create_user_assigns_fresh_id sample_cfg (remote_ok "alice@example.com")
           alice_id alice empty_db).
  apply pair_eta. vm_compute. reflexivity.
Defined.

(** ** Counters *)



(** ** List *)

(** C4: listing is claimed to return an envelope whose resources carry the
    stored identifiers.  With one record stored, [get_users 1 100] raises
    pydantic's [ValidationError]: the loop passes the builtin function [id]
    as the resource's [id]. *)
Theorem get_users_stored_record :
  fst (get_users 1 100 (start alice_db)) = Raise ValidationError
  /\ select_page 100 (Z.max (1 - 1) 0) alice_db = [alice_row].
Proof. split; vm_compute; reflexivity. Qed.

(** ** Delete *)

(** C3: deleting an identifier that matches no record is claimed to raise
    the 404 [notFound] error.  For an identifier of the shape the bridge
    generates, against a store that does not hold it, [delete_user] raises
    [sqlite3.ProgrammingError]: the string itself is passed as the parameter
    sequence, 36 bindings for one placeholder.  The database is untouched. *)
Theorem delete_user_unknown_uuid :
  select_by_id (Some "0b0e7a52-77c1-4b5e-8d0a-6c1f2e3d4a5b") alice_db = None
  /\ fst (delete_user sample_cfg (remote_ok "alice@example.com")
            "0b0e7a52-77c1-4b5e-8d0a-6c1f2e3d4a5b" (start alice_db))
     = Raise ProgrammingError
  /\ disk (snd (delete_user sample_cfg (remote_ok "alice@example.com")
                  "0b0e7a52-77c1-4b5e-8d0a-6c1f2e3d4a5b" (start alice_db)))
     = alice_db.
Proof. split_and!; vm_compute; reflexivity. Qed.

(** ** Mailcow helpers *)

(** C5: every helper is claimed to return [(status, None)] when the body of
    the response is not JSON.  [get_mailbox] and [create_mailbox] do;
    [update_mailbox], [rename_mailbox] and [delete_mailbox] raise
    [ValueError] instead. *)
Theorem mailbox_client_unparseable_body :
  fst (get_mailbox sample_cfg remote_down "alice@example.com" (start empty_db))
  = Return (502, JNull)
  /\ fst (create_mailbox sample_cfg remote_down "alice" "example.com"
            (Some "Alice") (start empty_db))
     = Return (502, JNull)
  /\ fst (update_mailbox sample_cfg remote_down (JStr "alice@example.com")
            (Some true) (Some "Alice") None (start empty_db))
     = Raise ValueError
  /\ fst (rename_mailbox sample_cfg remote_down (JStr "alice@example.com")
            "alice.b" "example.com" (start empty_db))
     = Raise ValueError
  /\ fst (delete_mailbox sample_cfg remote_down (JStr "alice@example.com")
            (start empty_db))
     = Raise ValueError.
Proof. split_and!; reflexivity. Qed.

(** ** Update *)

(** C2: a successful update is claimed to replace the record stored under
    the identifier of the path.  Here the record of alice is updated through
    its path identifier with a body that has no [id] member; the edit and the
    rename both succeed, the operation returns and counts one update, and the
    stored record is exactly what it was: the [UPDATE] statement selects the
    row by the body's [id]. *)
Theorem update_user_keyed_by_body_id :
  fst (update_user sample_cfg (remote_ok "alice.b@example.com") alice_id
         alice_renamed (start alice_db))
  = Return alice_renamed
  /\ length (calls (snd (update_user sample_cfg (remote_ok "alice.b@example.com")
                           alice_id alice_renamed (start alice_db)))) = 2%nat
  /\ users (disk (snd (update_user sample_cfg (remote_ok "alice.b@example.com")
                         alice_id alice_renamed (start alice_db))))
     = [alice_row]
  /\ metrics (disk (snd (update_user sample_cfg (remote_ok "alice.b@example.com")
                           alice_id alice_renamed (start alice_db))))
       !! "users_updated" = Some 1%Z.
Proof. split_and!; vm_compute; reflexivity. Qed.

(** C7: a rename that fails after a successful edit is claimed to be
    reported as the 502 upstream error.  When the rename is answered by a
    body that is not JSON, [update_user] raises [ValueError], which is not an
    [HTTPException]; the record and the counters are what they were. *)
Theorem update_user_rename_unparseable :
  remote_failure (remote_edit_only
                    {| url := "https://mail.example.com/api/v1/edit/rename-mbox";
                       payload := None |}) = true
  /\ fst (update_user sample_cfg remote_edit_only alice_id
            (set_id alice_renamed (Some alice_id)) (start alice_db))
     = Raise ValueError
  /\ map url (calls (snd (update_user sample_cfg remote_edit_only alice_id
                            (set_id alice_renamed (Some alice_id))
                            (start alice_db))))
     = ["https://mail.example.com/api/v1/edit/mailbox";
        "https://mail.example.com/api/v1/edit/rename-mbox"]
  /\ disk (snd (update_user sample_cfg remote_edit_only alice_id
                  (set_id alice_renamed (Some alice_id)) (start alice_db)))
     = alice_db.
Proof. split_and!; vm_compute; reflexivity. Qed.

(** ** Start-up *)

Lemma insert_metric_if_absent_spec name d k :
  metrics (insert_metric_if_absent name d) !! k
  = match metrics d !! k with
    | Some v => Some v
    | None => if decide (k = name) then Some 0 else None
    end.
Proof.
  unfold insert_metric_if_absent.
  destruct (metrics d !! name) eqn:E.
  - destruct (metrics d !! k) eqn:Ek; [done|]. case_decide; [congruence|done].
  - simpl. rewrite lookup_insert. case_decide as Hn.
    + subst k. rewrite E. by case_decide.
    + destruct (metrics d !! k); [done|]. case_decide; [congruence|done].
Qed.

Lemma insert_metric_if_absent_present name d :
  is_Some (metrics d !! name) -> insert_metric_if_absent name d = d.
Proof. unfold insert_metric_if_absent. by intros [v ->]. Qed.

Lemma insert_metric_if_absent_users name d :
  users (insert_metric_if_absent name d) = users d.
Proof. unfold insert_metric_if_absent. by destruct (metrics d !! name). Qed.

(** X1: running the start-up statements on an existing database keeps every
    record and every counter value it finds, creates at 0 exactly the
    counters that are missing, and running them again changes nothing. *)
Theorem bootstrap_keeps_counters d :
  users (bootstrap d) = users d
  /\ (forall name,
        metrics (bootstrap d) !! name
        = match metrics d !! name with
          | Some v => Some v
          | None =>
              if bool_decide (name ∈ ["users_created"; "users_updated";
                                      "users_deleted"])
              then Some 0 else None
          end)
  /\ bootstrap (bootstrap d) = bootstrap d.
Proof.
  split_and!.
  - unfold bootstrap. by rewrite !insert_metric_if_absent_users.
  - intros name. unfold bootstrap. rewrite !insert_metric_if_absent_spec.
    destruct (metrics d !! name); [done|].
    destruct (decide (name = "users_created")) as [->|H1]; [done|].
    destruct (decide (name = "users_updated")) as [->|H2]; [done|].
    destruct (decide (name = "users_deleted")) as [->|H3]; [done|].
    rewrite bool_decide_eq_false_2; [done|].
    rewrite !not_elem_of_cons. split_and!; [done..|]. apply not_elem_of_nil.
  - destruct (bootstrap_ready d) as (Hc & Hu & Hd).
    unfold bootstrap at 1.
    rewrite (insert_metric_if_absent_present "users_created") by done.
    rewrite (insert_metric_if_absent_present "users_updated") by done.
    by rewrite (insert_metric_if_absent_present "users_deleted").
Qed.




(** X3: a flag of the environment is read as the truth of its text.
    Deletion is refused only when [ALLOW_DELETE] is set to the empty string;
    remote mailbox deletion is on, and certificate verification off, as soon
    as their variable is set to any non-empty text, ["false"] and ["0"]
    included. *)
Theorem load_settings_flags env s :
  load_settings env = inr s ->
  (ALLOW_DELETE (bridge_config s) = false <-> env !! "ALLOW_DELETE" = Some "")
  /\ (MAILCOW_DELETE_MAILBOX (bridge_config s) = true <->
      exists v, env !! "MAILCOW_DELETE_MAILBOX" = Some v /\ v <> "")
  /\ (get_async_client s = false <->
      exists v, env !! "SKIP_VERIFY_CERTIFICATE" = Some v /\ v <> "").
Proof.
  unfold load_settings. destruct (missing env); [|done]. intros [= <-].
  unfold get_async_client. simpl. unfold getenv_truth.
  split_and!.
  - destruct (env !! "ALLOW_DELETE") as [v|]; [|done].
    rewrite negb_false_iff, String.eqb_eq. split; congruence.
  - destruct (env !! "MAILCOW_DELETE_MAILBOX") as [v|].
    + rewrite negb_true_iff, String.eqb_neq. split; [eauto|].
      by intros (? & [= ->] & ?).
    + split; [done|]. by intros (? & ? & ?).
  - destruct (env !! "SKIP_VERIFY_CERTIFICATE") as [v|].
    + destruct (String.eqb_spec v ""); simpl.
      * split; [done|]. by intros (? & [= ->] & ?).
      * split; [eauto|done].
    + split; [done|]. by intros (? & ? & ?).
Qed.

Lemma load_settings_flags_witness :
  (ALLOW_DELETE (bridge_config sample_settings) = false <->
   sample_env !! "ALLOW_DELETE" = Some "")
  /\ (MAILCOW_DELETE_MAILBOX (bridge_config sample_settings) = true <->
      exists v, sample_env !! "MAILCOW_DELETE_MAILBOX" = Some v /\ v <> "")
  /\ (get_async_client sample_settings = false <->
      exists v, sample_env !! "SKIP_VERIFY_CERTIFICATE" = Some v /\ v <> "").
Proof.
  apply (load_settings_flags sample_env sample_settings).
  vm_compute. reflexivity.
Defined.

(** ** The success test *)

Lemma is_success_true_inv code resp :
  is_success code resp = Return true ->
  code = 200
  /\ exists fields rest,
       resp = JArr (JObj fields :: rest)
       /\ assoc "type" fields = Some (JStr "success").
Proof.
  unfold is_success.
  destruct (Z.eqb_spec code 200) as [->|]; simpl; [|done].
  destruct (truthy resp) eqn:Et; simpl; [|done].
  destruct resp as [| | | s | [|first rest] | ]; simpl in *; try done.
  - destruct s; simpl in *; done.
  - destruct first as [| | | | |fields]; simpl; try done.
    destruct (assoc "type" fields) as [ty|] eqn:Ea; simpl; [|done].
    destruct ty as [| | |t| |]; simpl; try done.
    intros [= Ht%String.eqb_eq]. subst t. eauto 6.
Qed.

(** X4: an answer of Mailcow passes the success test exactly when its status
    is 200 and its body is a list whose first element is an object with
    ["type"] equal to ["success"]. *)
Theorem is_success_true_iff code resp :
  is_success code resp = Return true <->
  code = 200
  /\ exists fields rest,
       resp = JArr (JObj fields :: rest)
       /\ assoc "type" fields = Some (JStr "success").
Proof.
  split; [apply is_success_true_inv|].
  intros (-> & fields & rest & -> & Ha). unfold is_success. simpl. by rewrite Ha.
Qed.

(** ** Addresses *)

Lemma split_no_sep sep s :
  ~ In sep (list_ascii_of_string s) -> split sep s = [s].
Proof.
  induction s as [|c s IH]; simpl; [done|]. intros Hn.
  destruct (Ascii.eqb_spec c sep) as [->|Hc]; [tauto|].
  rewrite IH; [done|tauto].
Qed.

Lemma split_app sep l r :
  ~ In sep (list_ascii_of_string l) ->
  split sep (l +:+ String sep r) = l :: split sep r.
Proof.
  induction l as [|c l IH]; simpl; intros Hn.
  - by rewrite Ascii.eqb_refl.
  - destruct (Ascii.eqb_spec c sep) as [->|Hc]; [tauto|].
    rewrite IH; [done|tauto].
Qed.

(** X5: for an address [local@domain] with no other ["@"], the two pieces the
    bridge passes to Mailcow are [local] and [domain]; when the domain part
    holds a further ["@"], only the text before it is passed as the domain. *)
Theorem split_at_index_address l d rest :
  ~ In "@"%char (list_ascii_of_string l) ->
  ~ In "@"%char (list_ascii_of_string d) ->
  split_at_index (JStr (l +:+ String "@" d)) 0 = Return l
  /\ split_at_index (JStr (l +:+ String "@" d)) 1 = Return d
  /\ split_at_index (JStr (l +:+ String "@" (d +:+ String "@" rest))) 1 = Return d.
Proof.
  intros Hl Hd. unfold split_at_index.
  rewrite !split_app by done. rewrite split_no_sep by done. done.
Qed.

Lemma split_at_index_address_witness :
  split_at_index (JStr "alice@example.com") 0 = Return "alice"
  /\ split_at_index (JStr "alice@example.com") 1 = Return "example.com"
  /\ split_at_index (JStr "alice@example.com@evil.org") 1 = Return "example.com".
Proof.
  apply (split_at_index_address "alice" "example.com" "evil.org").
  - vm_compute. intuition discriminate.
  - vm_compute. intuition discriminate.
Defined.

(** ** Endpoints *)

Lemma bearer_ok_iff token authorization :
  bearer_ok token authorization = true <->
  authorization = Some ("Bearer " +:+ token).
Proof.
  destruct authorization as [a|]; simpl; [|done].
  rewrite String.eqb_eq. split; congruence.
Qed.

(** X6: a request to any user or group endpoint whose [Authorization] header
    is absent or is not exactly ["Bearer "] followed by the configured token
    raises the 401 exception; the database is not opened and Mailcow is not
    called. *)
Theorem serve_unauthorized token cfg remote c authorization s :
  authorization <> Some ("Bearer " +:+ token) ->
  serve token cfg remote c authorization s = (Raise unauthorized, s).
Proof.
  intros Hne.
  assert (Hb : bearer_ok token authorization = false).
  { destruct (bearer_ok token authorization) eqn:E; [|done].
    by apply bearer_ok_iff in E. }
  destruct c; unfold serve, as_reply, bind,
    get_user_endpoint, get_users_endpoint, post_user_endpoint,
    put_user_endpoint, delete_user_endpoint, get_group_endpoint,
    get_groups_endpoint, post_group_endpoint, put_group_endpoint,
    delete_group_endpoint; rewrite Hb; reflexivity.
Qed.

Lemma serve_unauthorized_witness :
  serve "s3cret" sample_cfg (remote_ok "alice@example.com")
    (CallDeleteUser alice_id) (Some "Bearer S3CRET") (start alice_db)
  = (Raise unauthorized, start alice_db).
Proof.
  apply (serve_unauthorized "s3cret" sample_cfg (remote_ok "alice@example.com")
           (CallDeleteUser alice_id) (Some "Bearer S3CRET") (start alice_db)).
  discriminate.
Defined.

(** ** Metrics exposition *)

Lemma in_flat_map_metric_lines rows name v :
  In (name, v) rows ->
  In ("# HELP " +:+ name +:+ " SCIM metric for " +:+ name)
     (flat_map metric_lines rows)
  /\ In ("# TYPE " +:+ name +:+ " counter") (flat_map metric_lines rows)
  /\ In (name +:+ " " +:+ str_int v) (flat_map metric_lines rows).
Proof.
  intros Hin. split_and!; apply in_flat_map; exists (name, v); simpl; auto.
Qed.

Lemma length_flat_map_metric_lines rows :
  length (flat_map metric_lines rows) = (3 * length rows)%nat.
Proof.
  induction rows as [|[name v] rows IH]; simpl; [done|]. rewrite IH. lia.
Qed.

(** X7: whatever the order in which the rows of [metrics] come back, the
    text served at [/metrics] is the join of three lines per stored counter,
    among them the sample line [name value] of every counter; reading it
    leaves the database as it was and commits nothing. *)
Theorem get_metrics_exposes_counters fetchall d :
  (forall m : gmap string Z, fetchall m ≡ₚ map_to_list m) ->
  exists lines,
    get_metrics fetchall (start d) = (Return (join newline lines), start d)
    /\ length lines = (3 * size (metrics d))%nat
    /\ forall name v, metrics d !! name = Some v ->
         In ("# HELP " +:+ name +:+ " SCIM metric for " +:+ name) lines
         /\ In ("# TYPE " +:+ name +:+ " counter") lines
         /\ In (name +:+ " " +:+ str_int v) lines.
Proof.
  intros Hperm. exists (flat_map metric_lines (fetchall (metrics d))).
  split_and!.
  - reflexivity.
  - rewrite length_flat_map_metric_lines, (Permutation_length (Hperm _)).
    by rewrite length_map_to_list.
  - intros name v Hv. apply in_flat_map_metric_lines.
    apply list_elem_of_In. rewrite (Hperm (metrics d)).
    by apply elem_of_map_to_list.
Qed.

Lemma get_metrics_exposes_counters_witness :
  exists lines,
    get_metrics map_to_list (start empty_db)
    = (Return (join newline lines), start empty_db)
    /\ length lines = (3 * size (metrics empty_db))%nat
    /\ forall name v, metrics empty_db !! name = Some v ->
         In ("# HELP " +:+ name +:+ " SCIM metric for " +:+ name) lines
         /\ In ("# TYPE " +:+ name +:+ " counter") lines
         /\ In (name +:+ " " +:+ str_int v) lines.
Proof.
  apply (get_metrics_exposes_counters map_to_list empty_db).
  intros m. reflexivity.
Defined.

(** ** Reading a record *)

Lemma select_by_id_Some id d r :
  select_by_id (Some id) d = Some r -> r_id r = id /\ In r (users d).
Proof.
  unfold select_by_id. intros H. apply List.find_some in H as [Hin He].
  simpl in He. by apply String.eqb_eq in He.
Qed.

Lemma select_by_id_None id d :
  select_by_id (Some id) d = None <-> forall r, In r (users d) -> r_id r <> id.
Proof.
  unfold select_by_id. split.
  - intros H r Hin Heq.
    pose proof (List.find_none _ _ H r Hin) as Hf. simpl in Hf.
    apply String.eqb_neq in Hf. done.
  - intros H. destruct (List.find _ _) as [r|] eqn:E; [|done].
    apply List.find_some in E as [Hin He]. simpl in He.
    apply String.eqb_eq in He. by apply H in Hin.
Qed.

Lemma get_user_spec id d :
  get_user id (start d)
  = (match select_by_id (Some id) d with
     | Some r => Return (view r)
     | None => Raise (not_found id)
     end, start d).
Proof.
  unfold get_user. run.
  destruct (select_by_id (Some id) d) as [r|] eqn:E; [|done].
  apply select_by_id_Some in E as [<- _]. reflexivity.
Qed.

(** X8: [get_user] returns the view of the stored record with that [id], or
    raises the 404 [notFound] exception when there is none; it raises nothing
    else, sends nothing to Mailcow and leaves the database as it was. *)
Theorem get_user_view_or_not_found id d :
  get_user id (start d)
  = (match select_by_id (Some id) d with
     | Some r => Return (view r)
     | None => Raise (not_found id)
     end, start d).
Proof. apply get_user_spec. Qed.

(** ** Creating, then reading or creating again *)

Lemma find_app_new (k : string) (l : list row) (r : row) :
  (forall r', In r' l -> r_id r' <> k) -> r_id r = k ->
  List.find (fun r' => sql_eq (Some (r_id r')) (Some k)) (l ++ [r])%list = Some r.
Proof.
  intros Hl Hr. induction l as [|a l IH]; simpl.
  - by rewrite Hr, String.eqb_refl.
  - destruct (String.eqb_spec (r_id a) k) as [He|_].
    + exfalso. apply (Hl a); [by left|done].
    + apply IH. intros r' Hin. apply Hl. by right.
Qed.

(** X9: a record that [create_user] has stored can be read back: [get_user]
    on the returned identifier yields the attributes of the request
    (externalId, active, userName, displayName, emails) under that
    identifier. *)
Theorem create_then_get cfg remote fresh user d u' s' :
  create_user cfg remote fresh user (start d) = (Return u', s') ->
  get_user fresh (start (disk s'))
  = (Return {| u_schemas := user_schema; u_id := Some fresh;
               u_externalId := u_externalId user; u_active := u_active user;
               u_userName := u_userName user;
               u_displayName := u_displayName user;
               u_emails := u_emails user |},
     start (disk s')).
Proof.
  intros H.
  apply create_user_cases in H as [(m & d1 & _ & Hi & -> & _) | ((e & ?) & _)];
    [|done].
  apply insert_user_inv in Hi as (Hnew & Hu & _).
  rewrite get_user_spec.
  unfold select_by_id. simpl users. rewrite Hu.
  rewrite (find_app_new fresh (users d) _); [|intros r' Hr; by apply Hnew in Hr as [? _]|done].
  unfold view. simpl. by destruct (u_active user).
Qed.

Lemma create_then_get_witness :
  get_user alice_id
    (start (disk (snd (create_user sample_cfg (remote_ok "alice@example.com")
                         alice_id alice (start empty_db)))))
  = (Return {| u_schemas := user_schema; u_id := Some alice_id;
               u_externalId := u_externalId alice; u_active := u_active alice;
               u_userName := u_userName alice;
               u_displayName := u_displayName alice;
               u_emails := u_emails alice |},
     start (disk (snd (create_user sample_cfg (remote_ok "alice@example.com")
                         alice_id alice (start empty_db))))).
Proof.
  apply (create_then_get sample_cfg (remote_ok "alice@example.com") alice_id
           alice empty_db (set_id alice (Some alice_id))).
  apply pair_eta. vm_compute. reflexivity.
Defined.

Lemma create_user_when_exists cfg remote fresh user d email :
  get_primary_mail (u_emails user) = Return email ->
  is_None email = false ->
  select_exists (u_externalId user) (u_userName user) d = true ->
  create_user cfg remote fresh user (start d) = (Raise (conflict user), start d).
Proof.
  intros He Hn Hx. unfold create_user. run.
  rewrite He. simpl. rewrite Hn. simpl. by rewrite Hx.
Qed.

(** X10: once [create_user] has stored a user, a later creation request with
    the same userName (and a resolvable address) is refused with the 409
    [uniqueness] exception, whatever Mailcow would answer, without calling
    it and without writing. *)
Theorem create_twice_conflict cfg remote fresh user d u' s'
    remote2 fresh2 user2 email2 :
  create_user cfg remote fresh user (start d) = (Return u', s') ->
  u_userName user2 = u_userName user ->
  get_primary_mail (u_emails user2) = Return email2 ->
  is_None email2 = false ->
  create_user cfg remote2 fresh2 user2 (start (disk s'))
  = (Raise (conflict user2), start (disk s')).
Proof.
  intros H Hname He Hn.
  apply create_user_cases in H as [(m & d1 & _ & Hi & -> & _) | ((e & ?) & _)];
    [|done].
  apply insert_user_inv in Hi as (_ & Hu & _).
  apply (create_user_when_exists _ _ _ _ _ email2); [done..|].
  unfold select_exists. simpl users. rewrite Hu.
  apply existsb_exists. eexists. split; [apply in_or_app; right; by left|].
  simpl. rewrite Hname, String.eqb_refl. apply orb_true_r.
Qed.

Lemma create_twice_conflict_witness :
  create_user sample_cfg remote_down "0b0e7a52-77c1-4b5e-8d0a-6c1f2e3d4a5b"
    alice
    (start (disk (snd (create_user sample_cfg (remote_ok "alice@example.com")
                         alice_id alice (start empty_db)))))
  = (Raise (conflict alice),
     start (disk (snd (create_user sample_cfg (remote_ok "alice@example.com")
                         alice_id alice (start empty_db))))).
Proof.
  apply (create_twice_conflict sample_cfg (remote_ok "alice@example.com")
           alice_id alice empty_db (set_id alice (Some alice_id)) _
           remote_down "0b0e7a52-77c1-4b5e-8d0a-6c1f2e3d4a5b" alice
           (JStr "alice@example.com")).
  - apply pair_eta. vm_compute. reflexivity.
  - reflexivity.
  - reflexivity.
  - reflexivity.
Defined.

(** ** Requests rejected before the database is opened *)

(** X11: when the address of a request does not resolve (the list of emails
    is empty, or its first primary entry has no value), [create_user] and
    [update_user] raise the 400 [invalidSyntax] exception; the database is
    not opened and Mailcow is not called. *)
Theorem unresolved_address_rejected cfg remote fresh id user s :
  get_primary_mail (u_emails user) = Return JNull ->
  create_user cfg remote fresh user s = (Raise missing_emails, s)
  /\ update_user cfg remote id user s = (Raise missing_emails, s).
Proof.
  intros He. unfold create_user, update_user. run. by rewrite He.
Qed.

Lemma unresolved_address_rejected_witness :
  create_user sample_cfg (remote_ok "alice@example.com") alice_id
    {| u_schemas := user_schema; u_id := None; u_externalId := None;
       u_active := true; u_userName := "bob"; u_displayName := None;
       u_emails := [JObj [("primary", JBool true)]] |} (start alice_db)
  = (Raise missing_emails, start alice_db)
  /\ update_user sample_cfg (remote_ok "alice@example.com") alice_id
       {| u_schemas := user_schema; u_id := None; u_externalId := None;
          u_active := true; u_userName := "bob"; u_displayName := None;
          u_emails := [JObj [("primary", JBool true)]] |} (start alice_db)
     = (Raise missing_emails, start alice_db).
Proof.
  apply (unresolved_address_rejected sample_cfg (remote_ok "alice@example.com")
           alice_id alice_id _ (start alice_db)).
  reflexivity.
Defined.

(** X12: an address without ["@"] passes the emails check and the conflict
    check, and then [create_user] raises [IndexError] while splitting it:
    Mailcow is not called and nothing is written. *)
Theorem create_user_address_without_at cfg remote fresh user d a :
  get_primary_mail (u_emails user) = Return (JStr a) ->
  ~ In "@"%char (list_ascii_of_string a) ->
  select_exists (u_externalId user) (u_userName user) d = false ->
  create_user cfg remote fresh user (start d) = (Raise IndexError, start d).
Proof.
  intros He Ha Hx. unfold create_user. run.
  rewrite He. simpl. rewrite Hx. unfold split_at_index.
  rewrite split_no_sep by done. reflexivity.
Qed.

Lemma create_user_address_without_at_witness :
  create_user sample_cfg (remote_ok "alice@example.com") alice_id
    {| u_schemas := user_schema; u_id := None; u_externalId := None;
       u_active := true; u_userName := "bob"; u_displayName := None;
       u_emails := [JObj [("value", JStr "bob"); ("primary", JBool true)]] |}
    (start alice_db)
  = (Raise IndexError, start alice_db).
Proof.
  apply (create_user_address_without_at sample_cfg (remote_ok "alice@example.com")
           alice_id _ alice_db "bob").
  - reflexivity.
  - vm_compute. intuition discriminate.
  - reflexivity.
Defined.

(** ** Updating a record *)

Lemma bind_text_of_opt o : bind_text (of_opt o) = Return o.
Proof. by destruct o. Qed.

Lemma update_user_returns cfg remote id user d u' s' :
  update_user cfg remote id user (start d) = (Return u', s') ->
  exists email r m d1,
    get_primary_mail (u_emails user) = Return email
    /\ select_by_id (Some id) d = Some r
    /\ u' = user
    /\ update_users m (u_externalId user) (if u_active user then 1 else 0)
         (u_userName user) (u_displayName user) (u_emails user) (u_id user) d
       = Return d1
    /\ disk s' = incr_metric "users_updated" d1
    /\ ((ne_text email (r_mailcowId r) = false
         /\ m = r_mailcowId r
         /\ exists edit, calls s' = [edit])
        \/ (ne_text email (r_mailcowId r) = true
            /\ exists edit rename j mailbox,
                 calls s' = [edit; rename]
                 /\ body (remote rename) = Some j
                 /\ resulting_mailbox j = Return mailbox
                 /\ bind_text mailbox = Return m)).
Proof.
  unfold update_user. run. intros H.
  repeat case_match; simplify_eq; simpl;
    repeat match goal with
           | B : bind_text (of_opt _) = Return _ |- _ =>
               rewrite bind_text_of_opt in B; simplify_eq
           end;
    do 4 eexists; (split_and!; [done..|]);
    first [ left; split_and!; [done..|]; by eexists
          | right; split_and!; [done|]; do 4 eexists; split_and!; done ].
Qed.

Lemma map_if_none (p : row -> bool) (g : row -> row) l :
  (forall r, In r l -> p r = false) ->
  map (fun r => if p r then g r else r) l = l.
Proof.
  induction l as [|a l IH]; intros H; [done|]. cbn [map].
  rewrite (H a) by (by left). f_equal. apply IH. intros r Hr. apply H. by right.
Qed.

Lemma update_users_inv m s a u n e k d d1 :
  update_users m s a u n e k d = Return d1 ->
  metrics d1 = metrics d
  /\ users d1 = map (fun r => if sql_eq (Some (r_id r)) k
                              then set_fields m s a u n e r else r) (users d)
  /\ ((exists r, In r (users d) /\ sql_eq (Some (r_id r)) k = true) ->
      forall r, In r (users d) -> sql_eq (Some (r_id r)) k = false ->
                r_userName r <> u).
Proof.
  unfold update_users. intros H.
  destruct (existsb (fun r => sql_eq (Some (r_id r)) k) (users d)) eqn:E1.
  - destruct (existsb _ (users d)) eqn:E2 in H; [done|]. simplify_eq.
    cbn [users metrics].
    split_and!; [done..|]. intros _ r Hin Hk Hu.
    assert (Ht : existsb (fun r => negb (sql_eq (Some (r_id r)) k)
                                   && (r_userName r =? u)) (users d) = true).
    { apply existsb_exists. exists r. split; [done|].
      rewrite Hk, Hu, String.eqb_refl. done. }
    congruence.
  - simplify_eq. split_and!; [done| |].
    + assert (Hall : forall r, In r (users d1) -> sql_eq (Some (r_id r)) k = false).
      { intros r Hin. destruct (sql_eq (Some (r_id r)) k) eqn:Ek; [|done].
        assert (existsb (fun r => sql_eq (Some (r_id r)) k) (users d1) = true)
          by (apply existsb_exists; eauto).
        congruence. }
      symmetry. by apply map_if_none.
    + intros (r & Hin & Hk).
      assert (existsb (fun r => sql_eq (Some (r_id r)) k) (users d1) = true)
        by (apply existsb_exists; eauto).
      congruence.
Qed.

Lemma update_users_ids m s a u n e k d d1 :
  update_users m s a u n e k d = Return d1 ->
  map r_id (users d1) = map r_id (users d).
Proof.
  intros H. apply update_users_inv in H as (_ & -> & _).
  rewrite map_map. apply map_ext. intros r. by destruct (sql_eq _ _).
Qed.

Lemma find_map_same_id k (f : row -> row) l :
  (forall r, r_id (f r) = r_id r) ->
  List.find (fun r => sql_eq (Some (r_id r)) (Some k)) (map f l)
  = option_map f (List.find (fun r => sql_eq (Some (r_id r)) (Some k)) l).
Proof.
  intros Hf. induction l as [|a l IH]; simpl; [done|].
  rewrite Hf. by destruct (r_id a =? k).
Qed.

(** X13: after [update_user] has returned for a body whose [id] is the
    identifier of the path, [get_user] on that identifier yields the
    attributes of the body (externalId, active, userName, displayName,
    emails). *)
Theorem update_then_get cfg remote id user d u' s' :
  update_user cfg remote id user (start d) = (Return u', s') ->
  u_id user = Some id ->
  get_user id (start (disk s'))
  = (Return {| u_schemas := user_schema; u_id := Some id;
               u_externalId := u_externalId user; u_active := u_active user;
               u_userName := u_userName user;
               u_displayName := u_displayName user;
               u_emails := u_emails user |},
     start (disk s')).
Proof.
  intros H Hid.
  apply update_user_returns in H
    as (email & r & m & d1 & _ & Hsel & _ & Hu & -> & _).
  rewrite Hid in Hu. apply update_users_inv in Hu as (_ & Hu & _).
  rewrite get_user_spec.
  unfold select_by_id in *. simpl users. rewrite Hu.
  rewrite find_map_same_id by (intros r0; by destruct (sql_eq _ _)).
  rewrite Hsel. simpl.
  apply List.find_some in Hsel as [_ Hk]. simpl in Hk.
  rewrite Hk. unfold view. simpl. apply String.eqb_eq in Hk as ->.
  by destruct (u_active user).
Qed.

Lemma update_then_get_witness :
  get_user alice_id
    (start (disk (snd (update_user sample_cfg (remote_ok "alice.b@example.com")
                         alice_id (set_id alice_renamed (Some alice_id))
                         (start alice_db)))))
  = (Return {| u_schemas := user_schema; u_id := Some alice_id;
               u_externalId := Some "ext-1"; u_active := false;
               u_userName := "alice"; u_displayName := Some "Alice B";
               u_emails := u_emails alice_renamed |},
     start (disk (snd (update_user sample_cfg (remote_ok "alice.b@example.com")
                         alice_id (set_id alice_renamed (Some alice_id))
                         (start alice_db))))).
Proof.
  apply (update_then_get sample_cfg (remote_ok "alice.b@example.com") alice_id
           (set_id alice_renamed (Some alice_id)) alice_db
           (set_id alice_renamed (Some alice_id))).
  - apply pair_eta. vm_compute. reflexivity.
  - reflexivity.
Defined.

(** X14: whatever its outcome, [update_user] neither adds nor removes a
    record nor changes an identifier, and every record whose identifier is
    not the [id] of the body is stored exactly as before. *)
Theorem update_user_keeps_other_records cfg remote id user d :
  map r_id (users (disk (snd (update_user cfg remote id user (start d)))))
  = map r_id (users d)
  /\ forall stored, In stored (users d) ->
       Some (r_id stored) <> u_id user ->
       In stored (users (disk (snd (update_user cfg remote id user (start d))))).
Proof.
  destruct (update_user cfg remote id user (start d)) as [r s'] eqn:H.
  cbn [snd].
  apply update_user_cases in H
    as [(m & d1 & _ & Hu & -> & _) | (_ & -> & _)]; [|done].
  split; [by apply update_users_ids in Hu|].
  apply update_users_inv in Hu as (_ & Hu & _). simpl users. rewrite Hu.
  intros stored Hin Hne. apply in_map_iff. exists stored. split; [|done].
  destruct (u_id user) as [k|]; simpl; [|done].
  destruct (String.eqb_spec (r_id stored) k); [congruence|done].
Qed.

(** X15: the mailbox name stored by a returning [update_user] (for a body
    whose [id] is the identifier of the path).  When the resolved address is
    the stored mailbox name, one request is sent and the name stays; when it
    differs, two requests are sent and the stored name becomes the second
    item of the rename answer's [msg], whatever address was asked for. *)
Theorem update_user_mailbox_name cfg remote id user d u' s' :
  update_user cfg remote id user (start d) = (Return u', s') ->
  u_id user = Some id ->
  exists email before after,
    get_primary_mail (u_emails user) = Return email
    /\ select_by_id (Some id) d = Some before
    /\ select_by_id (Some id) (disk s') = Some after
    /\ ((ne_text email (r_mailcowId before) = false
         /\ r_mailcowId after = r_mailcowId before
         /\ length (calls s') = 1%nat)
        \/ (ne_text email (r_mailcowId before) = true
            /\ exists edit rename j mailbox,
                 calls s' = [edit; rename]
                 /\ body (remote rename) = Some j
                 /\ resulting_mailbox j = Return mailbox
                 /\ bind_text mailbox = Return (r_mailcowId after))).
Proof.
  intros H Hid.
  apply update_user_returns in H
    as (email & r & m & d1 & He & Hsel & _ & Hu & -> & Hm).
  rewrite Hid in Hu. apply update_users_inv in Hu as (_ & Hu & _).
  exists email, r,
    (set_fields m (u_externalId user) (if u_active user then 1 else 0)
       (u_userName user) (u_displayName user) (u_emails user) r).
  split_and!; [done..| |].
  - unfold select_by_id in *. simpl users. rewrite Hu.
    rewrite find_map_same_id by (intros r0; by destruct (sql_eq _ _)).
    rewrite Hsel. simpl.
    apply List.find_some in Hsel as [_ Hk]. simpl in Hk. by rewrite Hk.
  - simpl. destruct Hm as [(Hn & -> & edit & ->) | (Hn & Hm)]; [by left|by right].
Qed.

Lemma update_user_mailbox_name_witness :
  exists email before after,
    get_primary_mail (u_emails (set_id alice_renamed (Some alice_id)))
    = Return email
    /\ select_by_id (Some alice_id) alice_db = Some before
    /\ select_by_id (Some alice_id)
         (disk (snd (update_user sample_cfg (remote_ok "a.b@example.com")
                       alice_id (set_id alice_renamed (Some alice_id))
                       (start alice_db)))) = Some after
    /\ ((ne_text email (r_mailcowId before) = false
         /\ r_mailcowId after = r_mailcowId before
         /\ length (calls (snd (update_user sample_cfg
                                  (remote_ok "a.b@example.com") alice_id
                                  (set_id alice_renamed (Some alice_id))
                                  (start alice_db)))) = 1%nat)
        \/ (ne_text email (r_mailcowId before) = true
            /\ exists edit rename j mailbox,
                 calls (snd (update_user sample_cfg
                               (remote_ok "a.b@example.com") alice_id
                               (set_id alice_renamed (Some alice_id))
                               (start alice_db))) = [edit; rename]
                 /\ body (remote_ok "a.b@example.com" rename) = Some j
                 /\ resulting_mailbox j = Return mailbox
                 /\ bind_text mailbox = Return (r_mailcowId after))).
Proof.
  apply (update_user_mailbox_name sample_cfg (remote_ok "a.b@example.com")
           alice_id (set_id alice_renamed (Some alice_id)) alice_db
           (set_id alice_renamed (Some alice_id))).
  - apply pair_eta. vm_compute. reflexivity.
  - reflexivity.
Defined.

(** X16: for a request whose address resolves, [update_user] on an
    identifier that is not stored raises the 404 [notFound] exception
    without calling Mailcow and without writing. *)
Theorem update_user_unknown_id cfg remote id user d email :
  get_primary_mail (u_emails user) = Return email ->
  is_None email = false ->
  select_by_id (Some id) d = None ->
  update_user cfg remote id user (start d) = (Raise (not_found id), start d).
Proof.
  intros He Hn Hs. unfold update_user. run.
  rewrite He. simpl. rewrite Hn. simpl. by rewrite Hs.
Qed.

Lemma update_user_unknown_id_witness :
  update_user sample_cfg (remote_ok "alice@example.com")
    "0b0e7a52-77c1-4b5e-8d0a-6c1f2e3d4a5b" alice (start alice_db)
  = (Raise (not_found "0b0e7a52-77c1-4b5e-8d0a-6c1f2e3d4a5b"), start alice_db).
Proof.
  apply (update_user_unknown_id sample_cfg (remote_ok "alice@example.com")
           "0b0e7a52-77c1-4b5e-8d0a-6c1f2e3d4a5b" alice alice_db
           (JStr "alice@example.com")).
  - reflexivity.
  - reflexivity.
  - reflexivity.
Defined.

(** ** Exceptions of the pure steps *)

Lemma dict_get_sqlite_free v k : sqlite_free (dict_get v k).
Proof. by destruct v. Qed.

Lemma getitem_int_sqlite_free v i : sqlite_free (getitem_int v i).
Proof.
  destruct v; simpl; try done.
  - by destruct (String.get i s).
  - by destruct (nth_error l i).
Qed.

Lemma getitem_str_sqlite_free v k : sqlite_free (getitem_str v k).
Proof. destruct v; simpl; try done. by destruct (assoc k d). Qed.

Lemma primary_loop_sqlite_free mails : sqlite_free (primary_loop mails).
Proof.
  induction mails as [|mail rest IH]; simpl; [done|].
  destruct mail; simpl; try done.
  destruct (is_True _); simpl; [done|apply IH].
Qed.

Lemma get_primary_mail_sqlite_free mails : sqlite_free (get_primary_mail mails).
Proof.
  unfold get_primary_mail. destruct (_ <? _)%Z; [done|].
  pose proof (primary_loop_sqlite_free mails) as Hl.
  destruct (primary_loop mails) as [[v|]|e]; simpl; [done| |unfold sqlite_free in *; congruence].
  pose proof (getitem_int_sqlite_free (List.last mails JNull) 0) as Hg.
  destruct (getitem_int _ 0) as [first|e]; simpl; [|unfold sqlite_free in *; congruence].
  apply dict_get_sqlite_free.
Qed.

Lemma split_at_index_sqlite_free v i : sqlite_free (split_at_index v i).
Proof. destruct v; simpl; try done. by destruct (nth_error _ i). Qed.

Lemma is_success_sqlite_free code resp : sqlite_free (is_success code resp).
Proof.
  unfold is_success. destruct (negb _); [done|]. destruct (negb _); [done|].
  pose proof (getitem_int_sqlite_free resp 0) as Hg.
  destruct (getitem_int resp 0) as [first|e]; simpl; [|unfold sqlite_free in *; congruence].
  pose proof (getitem_str_sqlite_free first "type") as Hs.
  destruct (getitem_str first "type"); simpl; unfold sqlite_free in *; congruence.
Qed.

Lemma resulting_mailbox_sqlite_free resp : sqlite_free (resulting_mailbox resp).
Proof.
  unfold resulting_mailbox.
  pose proof (getitem_int_sqlite_free resp 0) as Hg.
  destruct (getitem_int resp 0) as [first|e]; simpl; [|unfold sqlite_free in *; congruence].
  pose proof (getitem_str_sqlite_free first "msg") as Hs.
  destruct (getitem_str first "msg") as [msg|e]; simpl; [|unfold sqlite_free in *; congruence].
  apply getitem_int_sqlite_free.
Qed.

Lemma bind_text_sqlite_free v : sqlite_free (bind_text v).
Proof.
  destruct v; simpl; try done. unfold bind_int. by destruct (_ && _).
Qed.

Lemma is_success_remote_success resp j :
  body resp = Some j ->
  is_success (status resp) j = Return true ->
  remote_success resp = true.
Proof.
  intros Hb Hs. apply is_success_true_inv in Hs as (Hc & fields & rest & -> & Ht).
  unfold remote_success. rewrite Hb, Hc. simpl. by rewrite Ht.
Qed.

Ltac sqlite_free_contra :=
  match goal with
  | B : get_primary_mail _ = Raise IntegrityError |- _ =>
      by apply get_primary_mail_sqlite_free in B
  | B : split_at_index _ _ = Raise IntegrityError |- _ =>
      by apply split_at_index_sqlite_free in B
  | B : is_success _ _ = Raise IntegrityError |- _ =>
      by apply is_success_sqlite_free in B
  | B : resulting_mailbox _ = Raise IntegrityError |- _ =>
      by apply resulting_mailbox_sqlite_free in B
  | B : bind_text _ = Raise IntegrityError |- _ =>
      by apply bind_text_sqlite_free in B
  end.

Lemma update_users_integrity m s a u n e k d :
  update_users m s a u n e k d = Raise IntegrityError ->
  exists other, In other (users d) /\ r_userName other = u
                /\ Some (r_id other) <> k.
Proof.
  unfold update_users. destruct (existsb _ _); [|done].
  destruct (existsb _ _) eqn:E; [|done]. intros _.
  apply existsb_exists in E as (other & Hin & Hc).
  apply andb_true_iff in Hc as [Hk Hu].
  exists other. split_and!; [done|by apply String.eqb_eq| ].
  intros <-. simpl in Hk. by rewrite String.eqb_refl in Hk.
Qed.

Lemma update_user_trace cfg remote id user d r s' :
  update_user cfg remote id user (start d) = (r, s') ->
  (length (calls s') <= 2)%nat
  /\ (r = Raise IntegrityError ->
      calls s' <> []
      /\ (forall req, In req (calls s') -> remote_success (remote req) = true)
      /\ exists other, In other (users d)
                       /\ r_userName other = u_userName user
                       /\ Some (r_id other) <> u_id user).
Proof.
  unfold update_user. run. intros H.
  repeat case_match; simplify_eq; simpl; (split; [lia|]); intros Hr;
    simplify_eq; try sqlite_free_contra;
    repeat match goal with
           | B : negb ?b = false |- _ => apply negb_false_iff in B; subst b
           end;
    (split; [done|]);
    (split;
     [ intros req [<- | Hin];
       [ eapply is_success_remote_success; eassumption
       | try (destruct Hin as [<- | []];
              eapply is_success_remote_success; eassumption); try done ]
     | eapply update_users_integrity; eassumption ]).
Qed.

(** X17: [update_user] can fail on the [UNIQUE] constraint of [userName]
    only after Mailcow has accepted everything it was sent: the edit, and
    the rename when there is one, were answered with a success (status 200,
    a list whose first element has type ["success"]), another record holds
    the requested userName, and the local record is left as it was. *)
Theorem update_user_integrity_error cfg remote id user d s' :
  update_user cfg remote id user (start d) = (Raise IntegrityError, s') ->
  disk s' = d
  /\ calls s' <> []
  /\ (forall req, In req (calls s') -> remote_success (remote req) = true)
  /\ exists other, In other (users d)
                   /\ r_userName other = u_userName user
                   /\ Some (r_id other) <> u_id user.
Proof.
  intros H.
  pose proof (update_user_trace _ _ _ _ _ _ _ H) as [_ Ht].
  destruct (Ht eq_refl) as (Hc & Hf & Ho).
  apply update_user_cases in H as [(m & d1 & [=] & _) | (_ & Hd & _)].
  done.
Qed.

Lemma update_user_integrity_error_witness :
  disk (snd (update_user sample_cfg (remote_ok "alice@example.com") alice_id
               alice_as_bob (start two_db))) = two_db
  /\ calls (snd (update_user sample_cfg (remote_ok "alice@example.com")
                   alice_id alice_as_bob (start two_db))) <> []
  /\ (forall req,
        In req (calls (snd (update_user sample_cfg
                              (remote_ok "alice@example.com") alice_id
                              alice_as_bob (start two_db)))) ->
        remote_success (remote_ok "alice@example.com" req) = true)
  /\ exists other, In other (users two_db)
                   /\ r_userName other = u_userName alice_as_bob
                   /\ Some (r_id other) <> u_id alice_as_bob.
Proof.
  apply (update_user_integrity_error sample_cfg (remote_ok "alice@example.com")
           alice_id alice_as_bob two_db).
  apply pair_eta. vm_compute. reflexivity.
Defined.

(** ** Deleting a record *)

Lemma delete_user_returns cfg remote id d s' :
  delete_user cfg remote id (start d) = (Return tt, s') ->
  exists r,
    select_by_id (Some id) d = Some r
    /\ String.length id = 1%nat
    /\ disk s' = incr_metric "users_deleted" (delete_users (Some id) d)
    /\ calls s'
       = if MAILCOW_DELETE_MAILBOX cfg
         then [{| url := MAILCOW_API_URL cfg +:+ "delete/mailbox";
                  payload := Some (JArr [of_opt (r_mailcowId r)]) |}]
         else [].
Proof.
  unfold delete_user. run. intros H.
  repeat case_match; simplify_eq;
    repeat match goal with
           | B : bind_str_as_sequence 1 _ = Return _ |- _ =>
               apply bind_str_as_sequence_one in B; destruct B as [-> ?]
           end; simpl in *; eauto 10.
Qed.

Lemma select_by_id_delete_users id d :
  select_by_id (Some id) (delete_users (Some id) d) = None.
Proof.
  apply select_by_id_None. intros r Hin. unfold delete_users in Hin.
  simpl in Hin. apply filter_In in Hin as [_ Hk].
  apply negb_true_iff, String.eqb_neq in Hk. done.
Qed.

(** X18: when [delete_user] returns, the identifier was stored and is one
    character long; the record is gone and every other record is kept; with
    [MAILCOW_DELETE_MAILBOX] off Mailcow was not called, with it on exactly
    one request was sent, to [delete/mailbox] for the stored mailbox name. *)
Theorem delete_user_removes_record cfg remote id d s' :
  delete_user cfg remote id (start d) = (Return tt, s') ->
  (exists r,
     select_by_id (Some id) d = Some r
     /\ calls s'
        = if MAILCOW_DELETE_MAILBOX cfg
          then [{| url := MAILCOW_API_URL cfg +:+ "delete/mailbox";
                   payload := Some (JArr [of_opt (r_mailcowId r)]) |}]
          else [])
  /\ String.length id = 1%nat
  /\ select_by_id (Some id) (disk s') = None
  /\ forall stored, In stored (users d) -> r_id stored <> id ->
                    In stored (users (disk s')).
Proof.
  intros H. apply delete_user_returns in H as (r & Hs & Hl & -> & Hc).
  split_and!; [by eauto|done|apply select_by_id_delete_users|].
  intros stored Hin Hne. simpl. apply filter_In. split; [done|].
  simpl. by apply negb_true_iff, String.eqb_neq.
Qed.

Lemma delete_user_removes_record_witness :
  (exists r,
     select_by_id (Some "7") short_db = Some r
     /\ calls (snd (delete_user deleting_cfg (remote_ok "carol@example.com")
                      "7" (start short_db)))
        = if MAILCOW_DELETE_MAILBOX deleting_cfg
          then [{| url := MAILCOW_API_URL deleting_cfg +:+ "delete/mailbox";
                   payload := Some (JArr [of_opt (r_mailcowId r)]) |}]
          else [])
  /\ String.length "7" = 1%nat
  /\ select_by_id (Some "7")
       (disk (snd (delete_user deleting_cfg (remote_ok "carol@example.com")
                     "7" (start short_db)))) = None
  /\ forall stored, In stored (users short_db) -> r_id stored <> "7" ->
       In stored
          (users (disk (snd (delete_user deleting_cfg
                               (remote_ok "carol@example.com") "7"
                               (start short_db))))).
Proof.
  apply (delete_user_removes_record deleting_cfg (remote_ok "carol@example.com")
           "7" short_db).
  apply pair_eta. vm_compute. reflexivity.
Defined.

(** X19: with [ALLOW_DELETE] off, [delete_user] raises the 403 [mutability]
    exception for every identifier, stored or not; the database is not
    opened and Mailcow is not called. *)
Theorem delete_user_forbidden cfg remote id s :
  ALLOW_DELETE cfg = false ->
  delete_user cfg remote id s = (Raise (forbidden id), s).
Proof. intros Ha. unfold delete_user. by rewrite Ha. Qed.

Lemma delete_user_forbidden_witness :
  delete_user readonly_cfg (remote_ok "carol@example.com") "7" (start short_db)
  = (Raise (forbidden "7"), start short_db).
Proof.
  apply (delete_user_forbidden readonly_cfg (remote_ok "carol@example.com") "7"
           (start short_db)).
  reflexivity.
Defined.

(** X20: when the answer of Mailcow to the request [delete_user] sent is not
    a success, [delete_user] does not return, the record stays and nothing
    is committed.  The exception is [ValueError] when the body is not JSON;
    otherwise it is what the success test makes of the answer: the 502
    exception when the test evaluates to [False] (status other than 200,
    empty body, or a first element whose type is present and is not
    ["success"]), and the [KeyError], [TypeError] or [IndexError] that the
    test itself raises on any other answer. *)
Theorem delete_user_remote_refusal cfg remote id d r s' req :
  delete_user cfg remote id (start d) = (r, s') ->
  calls s' = [req] ->
  remote_failure (remote req) = true ->
  disk s' = d /\ commits s' = 0%nat
  /\ r = Raise (match body (remote req) with
                | None => ValueError
                | Some j =>
                    match is_success (status (remote req)) j with
                    | Return _ => upstream_error
                    | Raise e => e
                    end
                end)
  /\ (reported_failure (remote req) = true -> body (remote req) <> None ->
      r = Raise upstream_error).
Proof.
  intros H Hc Hf.
  assert (Hmain : disk s' = d /\ commits s' = 0%nat
                  /\ r = Raise (match body (remote req) with
                                | None => ValueError
                                | Some j =>
                                    match is_success (status (remote req)) j with
                                    | Return _ => upstream_error
                                    | Raise e => e
                                    end
                                end)).
  { revert H Hc Hf. unfold delete_user, remote_failure. run. intros H Hc Hf.
    repeat case_match; simplify_eq; simpl in *; simplify_eq;
      repeat match goal with
             | B : negb ?b = false |- _ => apply negb_false_iff in B; subst b
             | B : body ?x = Some ?j, S : is_success (status ?x) ?j = Return true
               |- _ =>
                 rewrite (is_success_remote_success _ _ B S) in Hf; discriminate
             end;
      repeat match goal with
             | B : body ?x = _ |- context [body ?x] => rewrite B
             | B : is_success ?a ?b = _ |- context [is_success ?a ?b] => rewrite B
             end; try done; split_and!; congruence. }
  destruct Hmain as (Hd & Hn & Hr). split_and!; [done..|].
  intros Hrep Hb. apply failure_is_not_success in Hrep.
  destruct (body (remote req)) as [j|]; [|done].
  by rewrite Hrep in Hr.
Qed.

Lemma delete_user_remote_refusal_witness :
  disk (snd (delete_user deleting_cfg remote_error_object "7" (start short_db)))
  = short_db
  /\ commits (snd (delete_user deleting_cfg remote_error_object "7"
                     (start short_db))) = 0%nat
  /\ fst (delete_user deleting_cfg remote_error_object "7" (start short_db))
     = Raise KeyError.
Proof.
  destruct (delete_user_remote_refusal deleting_cfg remote_error_object "7"
              short_db
              (fst (delete_user deleting_cfg remote_error_object "7"
                      (start short_db)))
              (snd (delete_user deleting_cfg remote_error_object "7"
                      (start short_db)))
              {| url := "https://mail.example.com/api/v1/delete/mailbox";
                 payload := Some (JArr [JStr "carol@example.com"]) |})
    as (Hd & Hn & Hr & _).
  - apply pair_eta. reflexivity.
  - vm_compute. reflexivity.
  - reflexivity.
  - split_and!; [exact Hd|exact Hn|exact Hr].
Defined.

(** ** Answers of Mailcow that the success test does not expect *)

(** X21: when Mailcow answers the creation request with status 200 and a
    non-empty JSON object (not a list), [create_user] raises [KeyError], not
    the 502 exception; nothing is written. *)
Theorem create_user_object_body cfg remote fresh user d r s' req kv fields :
  create_user cfg remote fresh user (start d) = (r, s') ->
  calls s' = [req] ->
  status (remote req) = 200 ->
  body (remote req) = Some (JObj (kv :: fields)) ->
  r = Raise KeyError /\ disk s' = d /\ commits s' = 0%nat.
Proof.
  unfold create_user. run. intros H Hc Hs Hb.
  repeat case_match; simplify_eq; simpl in *; simplify_eq;
    repeat match goal with
           | B : body _ = _, B' : body _ = _ |- _ => rewrite B in B'; simplify_eq
           | B : status _ = _, B' : context [status _] |- _ =>
               rewrite B in B'; simpl in B'; simplify_eq
           end;
    unfold is_success in *; simpl in *; simplify_eq; eauto.
Qed.

Lemma create_user_object_body_witness :
  fst (create_user sample_cfg remote_error_object alice_id alice (start empty_db))
  = Raise KeyError
  /\ disk (snd (create_user sample_cfg remote_error_object alice_id alice
                  (start empty_db))) = empty_db
  /\ commits (snd (create_user sample_cfg remote_error_object alice_id alice
                     (start empty_db))) = 0%nat.
Proof.
  apply (create_user_object_body sample_cfg remote_error_object alice_id alice
           empty_db _ _
           {| url := "https://mail.example.com/api/v1/add/mailbox";
              payload :=
                Some (JObj [("active", JStr "1");
                            ("domain", JStr "example.com");
                            ("local_part", JStr "alice");
                            ("name", JStr "Alice");
                            ("authsource", JStr "generic-oidc");
                            ("password", JStr "");
                            ("password2", JStr "");
                            ("quota", JStr "3072");
                            ("force_pw_update", JStr "0");
                            ("tls_enforce_in", JStr "1");
                            ("tls_enforce_out", JStr "1");
                            ("tags", JArr [JStr "scim"])]) |}
           ("type", JStr "error") [("msg", JStr "authentication failed")]).
  - apply pair_eta. reflexivity.
  - vm_compute. reflexivity.
  - reflexivity.
  - reflexivity.
Defined.

(** X22: when Mailcow reports that the mailbox was created but the answer
    carries no [msg], [create_user] raises [KeyError] after the remote
    creation: the mailbox exists at Mailcow and no record of it is stored. *)
Theorem create_user_success_without_msg cfg remote fresh user d r s' req
    fields rest :
  create_user cfg remote fresh user (start d) = (r, s') ->
  calls s' = [req] ->
  status (remote req) = 200 ->
  body (remote req) = Some (JArr (JObj fields :: rest)) ->
  assoc "type" fields = Some (JStr "success") ->
  assoc "msg" fields = None ->
  remote_failure (remote req) = false
  /\ r = Raise KeyError /\ disk s' = d /\ commits s' = 0%nat.
Proof.
  intros H Hc Hs Hb Ht Hm. split.
  { unfold remote_failure, remote_success. rewrite Hs, Hb. simpl.
    by rewrite Ht. }
  revert H Hc Hs Hb. unfold create_user. run. intros H Hc Hs Hb.
  repeat case_match; simplify_eq; simpl in *; simplify_eq;
    repeat match goal with
           | B : body _ = _, B' : body _ = _ |- _ => rewrite B in B'; simplify_eq
           | B : status _ = _, B' : context [status _] |- _ =>
               rewrite B in B'; simpl in B'; simplify_eq
           end;
    unfold resulting_mailbox, is_success in *; simpl in *;
    repeat match goal with
           | B : context [assoc "type" _] |- _ => rewrite Ht in B
           | B : context [assoc "msg" _] |- _ => rewrite Hm in B
           end; simpl in *; simplify_eq; eauto.
Qed.

Lemma create_user_success_without_msg_witness :
  remote_failure
    (remote_success_no_msg
       {| url := "https://mail.example.com/api/v1/add/mailbox";
          payload := None |}) = false
  /\ fst (create_user sample_cfg remote_success_no_msg alice_id alice
            (start empty_db)) = Raise KeyError
  /\ disk (snd (create_user sample_cfg remote_success_no_msg alice_id alice
                  (start empty_db))) = empty_db
  /\ commits (snd (create_user sample_cfg remote_success_no_msg alice_id alice
                     (start empty_db))) = 0%nat.
Proof.
  destruct (create_user_success_without_msg sample_cfg remote_success_no_msg
              alice_id alice empty_db
              (fst (create_user sample_cfg remote_success_no_msg alice_id alice
                      (start empty_db)))
              (snd (create_user sample_cfg remote_success_no_msg alice_id alice
                      (start empty_db)))
              {| url := "https://mail.example.com/api/v1/add/mailbox";
                 payload :=
                   Some (JObj [("active", JStr "1");
                               ("domain", JStr "example.com");
                               ("local_part", JStr "alice");
                               ("name", JStr "Alice");
                               ("authsource", JStr "generic-oidc");
                               ("password", JStr "");
                               ("password2", JStr "");
                               ("quota", JStr "3072");
                               ("force_pw_update", JStr "0");
                               ("tls_enforce_in", JStr "1");
                               ("tls_enforce_out", JStr "1");
                               ("tags", JArr [JStr "scim"])]) |}
              [("type", JStr "success")] [])
    as (_ & H).
  - apply pair_eta. reflexivity.
  - vm_compute. reflexivity.
  - reflexivity.
  - reflexivity.
  - reflexivity.
  - reflexivity.
  - split; [reflexivity|exact H].
Defined.

(** ** The keys of the store *)

Lemma insert_user_keys r d d1 :
  keys_unique d -> insert_user r d = Return d1 -> keys_unique d1.
Proof.
  intros [Hi Hn] H. apply insert_user_inv in H as (Hnew & Hu & _).
  unfold keys_unique. rewrite Hu, !map_app. simpl.
  split; apply NoDup_app; (split_and!; [done| |apply NoDup_singleton]);
    intros x Hx ->%list_elem_of_singleton;
    apply list_elem_of_In, in_map_iff in Hx as (r' & Heq & Hin);
    apply Hnew in Hin as [? ?]; done.
Qed.

Lemma NoDup_userName_update (k : option string) (g : row -> row) u l :
  (forall r, r_userName (g r) = u) ->
  NoDup (map r_id l) -> NoDup (map r_userName l) ->
  (forall r, In r l -> sql_eq (Some (r_id r)) k = false -> r_userName r <> u) ->
  NoDup (map r_userName
           (map (fun r => if sql_eq (Some (r_id r)) k then g r else r) l)).
Proof.
  intros Hg. induction l as [|a l IH]; intros Hi Hn Hu; [constructor|].
  cbn [map] in *. apply NoDup_cons in Hi as [Hia Hi].
  apply NoDup_cons in Hn as [Hna Hn].
  destruct (sql_eq (Some (r_id a)) k) eqn:Ea.
  - assert (Hrest : forall r, In r l -> sql_eq (Some (r_id r)) k = false).
    { intros r Hin. destruct k as [k|]; [|done]. simpl in *.
      apply String.eqb_eq in Ea. subst k. apply String.eqb_neq.
      intros Heq. apply Hia. rewrite <- Heq.
      apply list_elem_of_In, in_map. done. }
    rewrite map_if_none by done. apply NoDup_cons. split; [|done].
    rewrite Hg. intros Hin.
    apply list_elem_of_In, in_map_iff in Hin as (r & Heq & Hin).
    apply (Hu r); [by right|by apply Hrest|done].
  - apply NoDup_cons. split.
    + intros Hin. apply list_elem_of_In, in_map_iff in Hin as (r' & Heq & Hin).
      apply in_map_iff in Hin as (r & <- & Hin).
      destruct (sql_eq (Some (r_id r)) k) eqn:Er.
      * rewrite Hg in Heq. apply (Hu a); [by left|done|done].
      * apply Hna. rewrite <- Heq. by apply list_elem_of_In, in_map.
    + apply IH; [done..|]. intros r Hin. apply Hu. by right.
Qed.

Lemma update_users_keys m s a u n e k d d1 :
  keys_unique d -> update_users m s a u n e k d = Return d1 -> keys_unique d1.
Proof.
  intros [Hi Hn] H. split.
  - by rewrite (update_users_ids _ _ _ _ _ _ _ _ _ H).
  - apply update_users_inv in H as (_ & Hu & Hother). rewrite Hu.
    destruct (existsb (fun r => sql_eq (Some (r_id r)) k) (users d)) eqn:Ex.
    + apply existsb_exists in Ex.
      apply (NoDup_userName_update k _ u); [done..|]. by apply Hother.
    + rewrite map_if_none; [done|]. intros r Hin.
      destruct (sql_eq (Some (r_id r)) k) eqn:Er; [|done].
      assert (existsb (fun r => sql_eq (Some (r_id r)) k) (users d) = true)
        by (apply existsb_exists; eauto).
      congruence.
Qed.

Lemma NoDup_map_filter {B} (f : row -> B) (p : row -> bool) l :
  NoDup (map f l) -> NoDup (map f (List.filter p l)).
Proof.
  induction l as [|a l IH]; simpl; [done|].
  intros [Ha Hl]%NoDup_cons. destruct (p a); simpl; [|by apply IH].
  apply NoDup_cons. split; [|by apply IH].
  intros Hin. apply Ha.
  apply list_elem_of_In, in_map_iff in Hin as (r & Heq & Hin).
  apply filter_In in Hin as [Hin _]. rewrite <- Heq.
  by apply list_elem_of_In, in_map.
Qed.

Lemma delete_users_keys k d : keys_unique d -> keys_unique (delete_users k d).
Proof. intros [Hi Hn]. split; by apply NoDup_map_filter. Qed.

Lemma perform_keys cfg remote o d ok s' :
  keys_unique d -> perform cfg remote o d = (ok, s') -> keys_unique (disk s').
Proof.
  intros Hk.
  destruct o as [fresh user | id | index count | id user | id];
    unfold perform, outcome.
  - destruct (create_user _ _ _ _ _) as [r s] eqn:E. intros [= <- <-].
    apply create_user_cases in E
      as [(m & d1 & _ & Hi & -> & _) | (_ & -> & _)]; [|done].
    by apply insert_user_keys in Hi.
  - destruct (get_user _ _) as [r s] eqn:E. intros [= <- <-].
    by apply get_user_frame in E as [-> _].
  - destruct (get_users _ _ _) as [r s] eqn:E. intros [= <- <-].
    by apply get_users_frame in E as [-> _].
  - destruct (update_user _ _ _ _ _) as [r s] eqn:E. intros [= <- <-].
    apply update_user_cases in E
      as [(m & d1 & _ & Hu & -> & _) | (_ & -> & _)]; [|done].
    by apply update_users_keys in Hu.
  - destruct (delete_user _ _ _ _) as [r s] eqn:E. intros [= <- <-].
    apply delete_user_cases in E as [(_ & -> & _) | (_ & -> & _)]; [|done].
    by apply delete_users_keys.
Qed.

(** X23: the five user operations keep the keys of the store apart: if no
    two records share an [id] or a [userName] before a request, none do
    after it, whatever the request, whatever Mailcow answers. *)
Theorem perform_keeps_keys_unique cfg remote o d ok s' :
  keys_unique d -> perform cfg remote o d = (ok, s') -> keys_unique (disk s').
Proof. apply perform_keys. Qed.

Lemma perform_keeps_keys_unique_witness :
  length (users (disk (snd (perform sample_cfg (remote_ok "carol@example.com")
                              (OpCreate carol_id carol) two_db)))) = 3%nat
  /\ keys_unique
       (disk (snd (perform sample_cfg (remote_ok "carol@example.com")
                     (OpCreate carol_id carol) two_db)))
  /\ fst (perform sample_cfg (remote_ok "alice@example.com")
            (OpUpdate alice_id alice_as_bob) two_db) = false
  /\ keys_unique
       (disk (snd (perform sample_cfg (remote_ok "alice@example.com")
                     (OpUpdate alice_id alice_as_bob) two_db))).
Proof.
  split_and!.
  - vm_compute. reflexivity.
  - apply (perform_keeps_keys_unique sample_cfg (remote_ok "carol@example.com")
             (OpCreate carol_id carol) two_db
             (fst (perform sample_cfg (remote_ok "carol@example.com")
                     (OpCreate carol_id carol) two_db))).
    + split; compute_done.
    + apply pair_eta. reflexivity.
  - vm_compute. reflexivity.
  - apply (perform_keeps_keys_unique sample_cfg (remote_ok "alice@example.com")
             (OpUpdate alice_id alice_as_bob) two_db
             (fst (perform sample_cfg (remote_ok "alice@example.com")
                     (OpUpdate alice_id alice_as_bob) two_db))).
    + split; compute_done.
    + apply pair_eta. reflexivity.
Defined.

(** ** Requests sent to Mailcow *)

Lemma create_user_calls cfg remote fresh user d r s' :
  create_user cfg remote fresh user (start d) = (r, s') ->
  (length (calls s') <= 1)%nat.
Proof. unfold create_user. run. intros H. branches; lia. Qed.

Lemma delete_user_calls cfg remote id d r s' :
  delete_user cfg remote id (start d) = (r, s') ->
  (length (calls s') <= 1)%nat
  /\ (MAILCOW_DELETE_MAILBOX cfg = false -> calls s' = []).
Proof. unfold delete_user. run. intros H. branches; split; (lia || done). Qed.

Lemma get_user_calls id d r s' :
  get_user id (start d) = (r, s') -> calls s' = [].
Proof. unfold get_user. run. intros H. branches. Qed.

Lemma get_users_calls index count d r s' :
  get_users index count (start d) = (r, s') -> calls s' = [].
Proof. unfold get_users. run. intros H. branches. Qed.

(** X24: one request to the bridge makes at most two requests to Mailcow
    (there is no retry): none for reading or listing, at most one for
    creating, at most one for deleting and none when
    [MAILCOW_DELETE_MAILBOX] is off, at most two for updating. *)
Theorem perform_requests_bound cfg remote o d :
  (length (calls (snd (perform cfg remote o d)))
   <= match o with
      | OpRead _ | OpList _ _ => 0
      | OpCreate _ _ => 1
      | OpDelete _ => if MAILCOW_DELETE_MAILBOX cfg then 1 else 0
      | OpUpdate _ _ => 2
      end)%nat.
Proof.
  destruct o as [fresh user | id | index count | id user | id];
    unfold perform, outcome; cbn [snd].
  - destruct (create_user _ _ _ _ _) as [r s] eqn:E.
    by apply create_user_calls in E.
  - destruct (get_user _ _) as [r s] eqn:E.
    apply get_user_calls in E. simpl. by rewrite E.
  - destruct (get_users _ _ _) as [r s] eqn:E.
    apply get_users_calls in E. simpl. by rewrite E.
  - destruct (update_user _ _ _ _ _) as [r s] eqn:E.
    by apply update_user_trace in E as [? _].
  - destruct (delete_user _ _ _ _) as [r s] eqn:E.
    apply delete_user_calls in E as [Hl Hn]. simpl.
    destruct (MAILCOW_DELETE_MAILBOX cfg); [done|]. by rewrite Hn.
Qed.

(** ** Listing past the end *)

(** X25: [get_users] asked for a page that starts after the last record, or
    for a page of no entries, returns an envelope with no resource, the
    number of stored records as [totalResults] and the requested index as
    [startIndex]. *)
Theorem get_users_past_the_end index count d :
  (index < 2 ^ 63)%Z -> (0 <= count < 2 ^ 63)%Z ->
  (Z.of_nat (length (users d)) <= index - 1)%Z \/ count = 0%Z ->
  get_users index count (start d)
  = (Return {| l_schemas :=
                 [JStr "urn:ietf:params:scim:api:messages:2.0:ListResponse"];
               totalResults := Z.of_nat (length (users d));
               itemsPerPage := 0;
               startIndex := index;
               Resources := [] |}, start d).
Proof.
  intros Hi Hc Hp.
  assert (Hbc : bind_int count = Return count).
  { unfold bind_int.
    destruct (Z.leb_spec (- 2 ^ 63) count); [|lia].
    destruct (Z.ltb_spec count (2 ^ 63)); [done|lia]. }
  assert (Hbo : bind_int (Z.max (index - 1) 0) = Return (Z.max (index - 1) 0)).
  { unfold bind_int.
    destruct (Z.leb_spec (- 2 ^ 63) (Z.max (index - 1) 0)); [|lia].
    destruct (Z.ltb_spec (Z.max (index - 1) 0) (2 ^ 63)); [done|lia]. }
  assert (Hpage : select_page count (Z.max (index - 1) 0) d = []).
  { unfold select_page. destruct (Z.ltb_spec count 0); [lia|].
    destruct Hp as [Hp | ->]; [|done].
    rewrite drop_ge by lia. by destruct (Z.to_nat count). }
  unfold get_users. run. by rewrite Hbc, Hbo, Hpage.
Qed.

Lemma get_users_past_the_end_witness :
  get_users 2 100 (start alice_db)
  = (Return {| l_schemas :=
                 [JStr "urn:ietf:params:scim:api:messages:2.0:ListResponse"];
               totalResults := Z.of_nat (length (users alice_db));
               itemsPerPage := 0;
               startIndex := 2;
               Resources := [] |}, start alice_db).
Proof.
  apply (get_users_past_the_end 2 100 alice_db).
  - reflexivity.
  - split; [discriminate|reflexivity].
  - left. vm_compute. discriminate.
Defined.

(** ** Sequences of requests *)

Lemma perform_metrics_step cfg remote o d ok s' c v :
  perform cfg remote o d = (ok, s') ->
  metrics d !! c = Some v ->
  (v + Z.of_nat (if ok && bool_decide (counter_of o = Some c) then 1 else 0)
   <= 2 ^ 63 - 1)%Z ->
  metrics (disk s') !! c
  = Some (v + Z.of_nat (if ok && bool_decide (counter_of o = Some c)
                        then 1 else 0))%Z.
Proof.
  intros H Hv Hb.
  apply perform_cases in H as [(-> & d1 & Hm & Hc) | (-> & -> & _)].
  - destruct (counter_of o) as [c0|]; destruct Hc as [-> _].
    + unfold incr_metric. cbn [metrics].
      rewrite lookup_alter, Hm. destruct (decide (c0 = c)) as [->|Hn].
      * rewrite bool_decide_eq_true_2 in Hb |- * by done.
        rewrite Hv. change (Some (add_one v) = Some (v + Z.of_nat 1)%Z).
        rewrite add_one_below; [done|]. cbn [andb] in Hb. lia.
      * rewrite Hv, bool_decide_eq_false_2 by congruence.
        cbn [andb]. f_equal. lia.
    + rewrite Hv. cbn [andb]. rewrite bool_decide_eq_false_2 by done.
      f_equal. lia.
  - rewrite Hv. cbn [andb]. f_equal. lia.
Qed.

(** X26: over any sequence of requests, a counter that stays within the
    64-bit INTEGERs ends at its initial value plus the number of requests
    of its kind that returned: creations for [users_created], updates for
    [users_updated], deletions for [users_deleted]. *)
Theorem counters_count_returns cfg steps d oks d' c v :
  perform_all cfg steps d = (oks, d') ->
  metrics d !! c = Some v ->
  (v + Z.of_nat (returned_on c steps oks) <= 2 ^ 63 - 1)%Z ->
  metrics d' !! c = Some (v + Z.of_nat (returned_on c steps oks))%Z.
Proof.
  revert d oks v. induction steps as [|[o remote] steps IH]; intros d oks v.
  - simpl. intros [= <- <-] Hv _. rewrite Hv. f_equal. lia.
  - simpl. destruct (perform cfg remote o d) as [ok s'] eqn:Ep.
    destruct (perform_all cfg steps (disk s')) as [oks' d''] eqn:Ea.
    intros [= <- <-] Hv Hb. cbn [returned_on] in Hb |- *.
    assert (Hb1 : (v + Z.of_nat (if ok && bool_decide (counter_of o = Some c)
                                 then 1 else 0) <= 2 ^ 63 - 1)%Z)
      by (destruct (ok && bool_decide (counter_of o = Some c)); lia).
    pose proof (perform_metrics_step _ _ _ _ _ _ _ _ Ep Hv Hb1) as Hs.
    rewrite (IH _ _ _ Ea Hs).
    + f_equal. destruct (ok && bool_decide (counter_of o = Some c)); lia.
    + destruct (ok && bool_decide (counter_of o = Some c)); lia.
Qed.

Lemma counters_count_returns_witness :
  metrics
    (snd (perform_all sample_cfg
            [(OpCreate alice_id alice, remote_ok "alice@example.com");
             (OpCreate "0b0e7a52-77c1-4b5e-8d0a-6c1f2e3d4a5b" alice, remote_down);
             (OpUpdate alice_id (set_id alice_renamed (Some alice_id)),
              remote_ok "alice.b@example.com");
             (OpRead alice_id, remote_down)]
            empty_db)) !! "users_created"
  = Some (0 + Z.of_nat
                (returned_on "users_created"
                   [(OpCreate alice_id alice, remote_ok "alice@example.com");
                    (OpCreate "0b0e7a52-77c1-4b5e-8d0a-6c1f2e3d4a5b" alice,
                     remote_down);
                    (OpUpdate alice_id (set_id alice_renamed (Some alice_id)),
                     remote_ok "alice.b@example.com");
                    (OpRead alice_id, remote_down)]
                   [true; false; true; true]))%Z.
Proof.
  apply (counters_count_returns sample_cfg _ empty_db [true; false; true; true]).
  - apply pair_eta. vm_compute. reflexivity.
  - vm_compute. reflexivity.
  - vm_compute. discriminate.
Defined.

Lemma filter_keep_all (p : row -> bool) l :
  (forall r, In r l -> p r = true) -> List.filter p l = l.
Proof.
  induction l as [|a l IH]; intros H; [done|]. simpl.
  rewrite (H a) by (by left). f_equal. apply IH. intros r Hr. apply H. by right.
Qed.

Lemma length_filter_remove_one id l r :
  NoDup (map r_id l) -> In r l -> r_id r = id ->
  S (length (List.filter (fun r => negb (sql_eq (Some (r_id r)) (Some id))) l))
  = length l.
Proof.
  induction l as [|a l IH]; [done|]. cbn [map].
  intros [Ha Hl]%NoDup_cons Hin Hr. simpl.
  destruct (String.eqb_spec (r_id a) id) as [He|Hne]; simpl.
  - f_equal. rewrite filter_keep_all; [done|].
    intros r' Hr'. apply negb_true_iff, String.eqb_neq. intros Heq.
    apply Ha. rewrite He, <- Heq. by apply list_elem_of_In, in_map.
  - f_equal. apply IH; [done| |done].
    destruct Hin as [-> | Hin]; [done|done].
Qed.

Lemma perform_users_step cfg remote o d ok s' :
  keys_unique d ->
  perform cfg remote o d = (ok, s') ->
  (length (users (disk s'))
   + (if ok && bool_decide (counter_of o = Some "users_deleted") then 1 else 0)
   = length (users d)
     + (if ok && bool_decide (counter_of o = Some "users_created") then 1 else 0))%nat.
Proof.
  intros [Hi _].
  destruct o as [fresh user | id | index count | id user | id];
    unfold perform, outcome; simpl counter_of.
  - destruct (create_user _ _ _ _ _) as [r s] eqn:E. intros [= <- <-].
    apply create_user_cases in E
      as [(m & d1 & -> & Hins & -> & _) | ((e & ->) & -> & _)]; simpl; [|lia].
    apply insert_user_inv in Hins as (_ & -> & _).
    rewrite length_app. simpl. lia.
  - destruct (get_user _ _) as [r s] eqn:E. intros [= <- <-].
    apply get_user_frame in E as [-> _]. simpl. rewrite !andb_false_r. lia.
  - destruct (get_users _ _ _) as [r s] eqn:E. intros [= <- <-].
    apply get_users_frame in E as [-> _]. simpl. rewrite !andb_false_r. lia.
  - destruct (update_user _ _ _ _ _) as [r s] eqn:E. intros [= <- <-].
    apply update_user_cases in E
      as [(m & d1 & -> & Hu & -> & _) | ((e & ->) & -> & _)]; simpl; [|lia].
    apply update_users_ids in Hu.
    apply (f_equal (@length string)) in Hu. rewrite !length_map in Hu. lia.
  - destruct (delete_user _ _ _ _) as [r s] eqn:E. intros [= <- <-].
    destruct r as [[]|e].
    + apply delete_user_returns in E as (r & Hs & _ & -> & _). simpl.
      apply select_by_id_Some in Hs as [Hr Hin].
      pose proof (length_filter_remove_one id (users d) r Hi Hin Hr) as Hlen.
      simpl in Hlen. lia.
    + apply delete_user_cases in E as [([=] & _) | (_ & -> & _)]. simpl. lia.
Qed.

(** X27: starting from a store whose keys are apart, over any sequence of
    requests the keys stay apart and the number of stored records is the
    initial number, plus the creations that returned, minus the deletions
    that returned. *)
Theorem records_count_returns cfg steps d oks d' :
  keys_unique d ->
  perform_all cfg steps d = (oks, d') ->
  keys_unique d'
  /\ (length (users d') + returned_on "users_deleted" steps oks
      = length (users d) + returned_on "users_created" steps oks)%nat.
Proof.
  revert d oks. induction steps as [|[o remote] steps IH]; intros d oks Hk.
  - simpl. intros [= <- <-]. split; [done|lia].
  - simpl. destruct (perform cfg remote o d) as [ok s'] eqn:Ep.
    destruct (perform_all cfg steps (disk s')) as [oks' d''] eqn:Ea.
    intros [= <- <-].
    pose proof (perform_keys _ _ _ _ _ _ Hk Ep) as Hk'.
    pose proof (perform_users_step _ _ _ _ _ _ Hk Ep) as Hs.
    destruct (IH _ _ Hk' Ea) as [Hk'' Hl]. split; [done|].
    simpl returned_on. lia.
Qed.

Lemma records_count_returns_witness :
  keys_unique
    (snd (perform_all deleting_cfg
            [(OpCreate alice_id alice, remote_ok "alice@example.com");
             (OpDelete "7", remote_ok "carol@example.com");
             (OpDelete alice_id, remote_ok "alice@example.com")]
            {| users := [short_row]; metrics := metrics empty_db |}))
  /\ (length (users (snd (perform_all deleting_cfg
                            [(OpCreate alice_id alice,
                              remote_ok "alice@example.com");
                             (OpDelete "7", remote_ok "carol@example.com");
                             (OpDelete alice_id, remote_ok "alice@example.com")]
                            {| users := [short_row];
                               metrics := metrics empty_db |})))
      + returned_on "users_deleted"
          [(OpCreate alice_id alice, remote_ok "alice@example.com");
           (OpDelete "7", remote_ok "carol@example.com");
           (OpDelete alice_id, remote_ok "alice@example.com")]
          [true; true; false]
      = length (users {| users := [short_row]; metrics := metrics empty_db |})
        + returned_on "users_created"
            [(OpCreate alice_id alice, remote_ok "alice@example.com");
             (OpDelete "7", remote_ok "carol@example.com");
             (OpDelete alice_id, remote_ok "alice@example.com")]
            [true; true; false])%nat.
Proof.
  apply (records_count_returns deleting_cfg _ _ [true; true; false]).
  - split; vm_compute; repeat constructor; set_solver.
  - apply pair_eta. vm_compute. reflexivity.
Defined.
